(** * A model of the STAFFVIRTUAL Discord bot ([main.py])

    The bot builds a prompt, sends it to one of its AI clients and lays
    the answer out in Discord embed fields.  Python [str] values are
    modelled as lists of Unicode code points ([pystr]); source literals are
    written as UTF-8 Rocq strings and decoded by [py].  A Python [dict] is
    an association list kept in insertion order. *)

From Stdlib Require Import String Ascii DecimalString.
From Stdlib Require Import ZArith List Bool Lia.
Import ListNotations.

Local Open Scope list_scope.

(** ** Python strings *)

Definition pystr := list Z.

Fixpoint bytes_of (s : string) : list Z :=
  match s with
  | EmptyString => []
  | String c r => Z.of_nat (nat_of_ascii c) :: bytes_of r
  end.

(** UTF-8 decoding of a byte sequence into code points. *)
Fixpoint utf8_decode (bs : list Z) : pystr :=
  match bs with
  | [] => []
  | b0 :: r0 =>
      if (b0 <? 128)%Z then b0 :: utf8_decode r0
      else if (b0 <? 224)%Z then
        match r0 with
        | b1 :: r1 => (Z.land b0 31 * 64 + Z.land b1 63)%Z :: utf8_decode r1
        | [] => []
        end
      else if (b0 <? 240)%Z then
        match r0 with
        | b1 :: b2 :: r2 =>
            (Z.land b0 15 * 4096 + Z.land b1 63 * 64 + Z.land b2 63)%Z
              :: utf8_decode r2
        | _ => []
        end
      else
        match r0 with
        | b1 :: b2 :: b3 :: r3 =>
            (Z.land b0 7 * 262144 + Z.land b1 63 * 4096 + Z.land b2 63 * 64
               + Z.land b3 63)%Z :: utf8_decode r3
        | _ => []
        end
  end.

(** A Python string literal of the source. *)
Definition py (s : string) : pystr := utf8_decode (bytes_of s).

Fixpoint pystr_eqb (a b : pystr) : bool :=
  match a, b with
  | [], [] => true
  | x :: a', y :: b' => Z.eqb x y && pystr_eqb a' b'
  | _, _ => false
  end.

(** [needle in hay] for Python strings. *)
Fixpoint py_startswith (hay needle : pystr) {struct needle} : bool :=
  match needle, hay with
  | [], _ => true
  | x :: n', y :: h' => Z.eqb x y && py_startswith h' n'
  | _ :: _, [] => false
  end.

Fixpoint py_contains (hay needle : pystr) : bool :=
  match hay with
  | [] => py_startswith [] needle
  | _ :: h' => py_startswith hay needle || py_contains h' needle
  end.

(** [s[:m]] for an integer [m] (a negative [m] counts from the end). *)
Definition py_slice_to (s : pystr) (m : Z) : pystr :=
  firstn (if (m <? 0)%Z then length s - Z.to_nat (- m) else Z.to_nat m) s.

(** [s[i:j]] for non-negative [i] and [j]. *)
Definition py_slice (s : pystr) (i j : nat) : pystr := firstn (j - i) (skipn i s).

(** [s[i:]] for a non-negative [i]. *)
Definition py_slice_from (s : pystr) (i : nat) : pystr := skipn i s.

(** ** Python dicts (insertion ordered, string keys) *)

Definition dict (V : Type) := list (pystr * V).

Fixpoint dict_get {V} (k : pystr) (d : dict V) : option V :=
  match d with
  | [] => None
  | (k', v) :: r => if pystr_eqb k k' then Some v else dict_get k r
  end.

(** [d[k] = v]: an existing key keeps its position, a new one goes last. *)
Fixpoint dict_set {V} (k : pystr) (v : V) (d : dict V) : dict V :=
  match d with
  | [] => [(k, v)]
  | (k', v') :: r =>
      if pystr_eqb k k' then (k, v) :: r else (k', v') :: dict_set k v r
  end.

(** ** The AI clients *)

(** What a provider call ends in: the text extracted from the response,
    or the message of the exception raised on the way. *)
Inductive outcome :=
| Ok (text : pystr)
| Raise (msg : pystr).

(** The three call shapes of the SDKs used by [_get_ai_response]:
    [client.models.generate_content(model=..., contents=[...])],
    [GenerativeModel.generate_content(prompt)] and
    [client.chat.completions.create(model=..., messages=[...], max_tokens=...)]. *)
Inductive request :=
| ModelsGenerateContent (model : pystr) (contents : list pystr)
| GenerateContent (contents : pystr)
| ChatCompletionsCreate (model : pystr) (messages : list (pystr * pystr))
    (max_tokens : Z).

(** A client handle, seen through the answers it gives. *)
Definition client := request -> outcome.

(** ** Bot state *)

Record entry := { entry_content : pystr; entry_type : pystr }.

(** [self.knowledge_base]: [{"manual_entries": {}, "scraped_content": {}}]. *)
Record knowledge_base_t := {
  manual_entries : dict entry;
  scraped_content : dict pystr
}.

(** The attributes of [SVDiscordBot] the claims read or write;
    [knowledge_base = None] when the attribute is not set yet. *)
Record bot := {
  brand_dna : pystr;
  ai_clients : dict client;
  knowledge_base : option knowledge_base_t
}.

(** The text of [self.brand_dna] set in [__init__]. *)
Definition brand_dna_text : pystr := py "
        STAFFVIRTUAL — Enterprise Virtual Talent Partner

        Company Profile:
        - Mission: Enable growing companies to scale with precision by deploying vetted, managed virtual teams that deliver measurable outcomes.
        - Vision: Become the most trusted global partner for building modern, distributed operating capacity.
        - Ideal Customers (ICP): Mid-market to enterprise operators (COO, CIO/CTO, CMO, Heads of Ops/Customer/IT) in SaaS, Fintech, E-commerce, Professional Services, Healthcare, Legal, and B2B Services.
        - Market Focus: North America, UK/Europe, and ANZ with delivery in the Philippines and follow-the-sun coverage.

        Category Narrative:
        - The Modern Weave™: We connect specialist talent, refined process, and lightweight tech to create an adaptive operating fabric—scalable, secure, and always on.

        Service Portfolio (Capability Towers):
        1) CX & Operations
           - Virtual Assistants, CX Pods (Voice/Chat/Email), Billing/AR, Back-Office Ops, Data QA, Research
        2) Creative & Content Studio
           - Brand & Design Ops, Marketing Design, Motion/Video Editing, Content Production, Social Ops
        3) Technology & Engineering
           - Web/App Dev, QA, DevOps, Data Engineering, IT Helpdesk (L1–L2), NOC, Cloud Support
        4) Growth Marketing
           - SEO, Paid Media (PPC/Meta/LinkedIn), Marketing Analytics, Email/Lifecycle, CRO, Marketing Ops

        Engagement Models & Commercials:
        - Dedicated Talent (FTE or Pod): Embedded specialists with shared QA and Team Lead oversight.
        - Managed Outcomes (SOW): Defined deliverables, SLAs, and governance.
        - Project Squads: Time-boxed initiatives with cross-functional roles.
        - Pricing: Transparent and role-based with seniority bands (L1–L3). Hourly, monthly retainers, or SOW.
          Reference ranges: $15–$75/hr; $2K–$15K/mo retainers; SOW on scope.

        Operating Model:
        - Vetted Talent Bench: Multi-step assessment, domain screening, and live work simulations.
        - Governance: Dedicated Team Leads, QA scorecards, weekly business reviews, and quarterly exec reviews.
        - Tooling: We integrate with your stack (Google/Microsoft, Slack/Teams, Jira/Asana, HubSpot/SFDC).
        - Coverage: 24/5 to 24/7 options with redundancy and documented runbooks.

        Competitive Positioning:
        - Premium Alternative to freelance networks and basic VA shops (Belay, Time Etc, Fancy Hands).
        - Vertical & Role Depth: Structured playbooks for CX, TechOps, Creative Ops, and Growth.
        - Managed, Not Marketplace: Accountability via SLAs, QA, and leadership layers.
        - Flexible & Low-Friction: Start lean, scale fast, adjust roles without re-hiring cycles.

        Trust, Security & Compliance:
        - Data Protection: Principle of least privilege, password vaulting, and secure device policies.
        - Process Controls: Role-based access, audit trails, and incident response playbooks.
        - Legal: DPAs available; client-preferred NDAs and addenda supported.
        - Compliance-Ready: We align to enterprise expectations; certification details provided during onboarding.

        Brand Identity (Essentials for Content & Design):
        - Palette:
          · Trust Blue: #1888FF
          · Authority Blue: #004B8D
          · Clean White: #F8F8EB
          · Ink Black: #231F20
        - Motifs: Modern Weave grid, rounded tiles, light node connections; clean, editorial compositions.
        - Photography: Realistic, bright, minimal; no text overlays; avoid clutter and gimmicks.
        - Illustration/3D: Isometric/editorial accents only; clean lighting; no cropped or cut-off elements.
        - Layout: Grid-first, ample whitespace, decisive hierarchy; Bain-grade restraint.
        - Tone of Voice: Executive, measured, evidence-led, outcome-oriented. Avoid hype and slang.

        Voice & Messaging Rules (Write Like This):
        - Lead with outcomes and specifics; quantify when possible.
        - Use plain English. Prefer verbs over adjectives. Keep sentences tight.
        - Emphasize accountability (SLAs, QA, governance) and adaptability (scale up/down, swap roles).
        - Do say: “We’ll stand up a two-role pod with a 14-day ramp and weekly quality reviews.”
          Don’t say: “We’ll supercharge your growth with world-class ninjas.”

        Messaging Pillars (with Proof You’ll Supply):
        1) Quality Talent, Vetted and Managed
           - Proof: Hiring funnel data, pass rates, simulation scores, client tenure.
        2) Enterprise-Grade Governance
           - Proof: QA scorecards, SLA attainment, cadence (WBR/QBR) artifacts.
        3) Scalable & Flexible Capacity
           - Proof: Ramp timelines, role swaps, seasonality playbooks.
        4) Security & Compliance
           - Proof: Access controls, device standards, DPAs, incident logs/process.
        5) ROI & Speed to Impact
           - Proof: Time-to-productivity, cost-to-serve deltas, case study results.

        Key Messages (Client-Facing):
        - “Build capacity without adding headcount.”
        - “Managed virtual teams that hit SLAs—and your goals.”
        - “Scale securely. Deliver faster. Reduce operational drag.”
        - “Outcomes over overhead.”

        Differentiators (What We Will Always Defend):
        - Vetted talent + managed delivery (not a marketplace).
        - Pod leadership and QA baked into every engagement.
        - Flexible models that match how operators actually run.
        - Clear governance, measurable outcomes, clean handoffs.

        Proof & Case Studies (Structure we’ll follow):
        - Situation → Approach (Pod, Playbooks, Tooling) → SLA/Outcome → ROI/Impact → Quote
        - Include team composition, timeline to ramp, and before/after metrics.

        Go-to-Market (Quick Start):
        - Entry Offers: Discovery Workshop, 30-day Pilot Pod, or Dedicated Role Stand-Up.
        - Typical Ramp: 10–14 days to steady state for L1–L2; 3–4 weeks for multi-role pods.
        - Executive Cadence: Weekly business reviews + QBRs; dashboard access by default.

        Keywords & Phrases (for SEO/Ads/Pages):
        - “Managed virtual teams”, “Offshore CX pod”, “Creative operations”, “IT helpdesk outsourcing”,
          “NOC support”, “Growth marketing pod”, “Scale operations”, “Bain-style operating partner”.

        Boilerplate (Short):
        - STAFFVIRTUAL builds modern operating capacity for growing companies. We deploy vetted virtual
          specialists and managed pods across CX, Creative, Technology, and Growth—governed by SLAs,
          QA, and executive cadence—so operators scale faster with less overhead.

        Contact CTA Library:
        - “Request a pilot pod”
        - “Scope an SOW”
        - “See a role matrix and pricing bands”
        - “Book a 20-minute fit assessment”

        (Updated: 2025-09-20, Asia/Manila)
        ".

(** ** [_get_ai_response] *)

(** The f-string [enhanced_prompt] of [_get_ai_response]. *)
Definition enhanced_prompt (brand_dna system_context prompt : pystr) : pystr :=
  py "
            " ++ brand_dna ++
  py "
            
            Your Expert Role: " ++ system_context ++
  py "
            
            User Request: " ++ prompt ++
  py "
            
            Instructions:
            1. Provide comprehensive, detailed responses (aim for 1500-3000 words for blog content)
            2. Include specific STAFFVIRTUAL examples, case studies, and value propositions
            3. Reference our actual services and competitive advantages
            4. Use industry statistics and credible data points
            5. Maintain professional yet engaging tone
            6. Include actionable next steps and clear calls-to-action
            7. For SEO content, naturally integrate relevant keywords
            8. Position STAFFVIRTUAL as the premium choice in virtual staffing
            
            Create expert-level content that demonstrates deep industry knowledge and STAFFVIRTUAL expertise.
            ".

Definition sentinel_no_service : pystr := py "❌ No AI service available.".

(** [result[:max_length] + "..." if max_length and len(result) > max_length
    else result]; [max_length] is [None] or a Python [int]. *)
Definition clip (max_length : option Z) (result : pystr) : pystr :=
  match max_length with
  | Some m =>
      if negb (Z.eqb m 0) && (Z.of_nat (length result) >? m)%Z
      then py_slice_to result m ++ py "..."
      else result
  | None => result
  end.

(** One [if key in self.ai_clients: try: ... except Exception as e:
    logger.error(...)] block; [k] is the rest of the function, and the
    list of [logger.error] lines is threaded through. *)
Definition try_client (b : bot) (key : pystr) (req : request) (err : pystr)
    (max_length : option Z) (k : list pystr -> pystr * list pystr)
    (log : list pystr) : pystr * list pystr :=
  match dict_get key (ai_clients b) with
  | Some c =>
      match c req with
      | Ok result => (clip max_length result, log)
      | Raise e => k (log ++ [err ++ e])
      end
  | None => k log
  end.

(** [_get_ai_response(prompt, system_context, use_knowledge, max_length)]:
    the returned string and the lines logged.  [use_knowledge] is a
    parameter of the source function that its body never reads.  The outer
    [except] only catches what the blocks below could raise outside their
    own [try]; nothing there raises, so it is not modelled. *)
Definition get_ai_response (b : bot) (prompt system_context : pystr)
    (use_knowledge : bool) (max_length : option Z) : pystr * list pystr :=
  let ep := enhanced_prompt (brand_dna b) system_context prompt in
  try_client b (py "nano_banana")
    (ModelsGenerateContent (py "gemini-2.0-flash-exp") [ep])
    (py "Nano Banana text error: ") max_length
    (try_client b (py "gemini") (GenerateContent ep)
       (py "Gemini error: ") max_length
       (try_client b (py "openai")
          (ChatCompletionsCreate (py "gpt-4")
             [(py "system", brand_dna b ++ [10%Z] ++ system_context);
              (py "user", prompt)] 3000)
          (py "OpenAI error: ") max_length
          (fun log => (sentinel_no_service, log))))
    [].

(** ** [_add_to_knowledge_base] *)

(** Returns [True] and the updated bot; the [except: return False] branch
    guards statements that cannot raise on this state. *)
Definition add_to_knowledge_base (b : bot) (title content : pystr)
    : bool * bot :=
  let kb := match knowledge_base b with
            | Some kb => kb
            | None => {| manual_entries := []; scraped_content := [] |}
            end in
  (true,
   {| brand_dna := brand_dna b;
      ai_clients := ai_clients b;
      knowledge_base :=
        Some {| manual_entries :=
                  dict_set title
                    {| entry_content := content; entry_type := py "manual" |}
                    (manual_entries kb);
                scraped_content := scraped_content kb |} |}).

(** ** [_initialize_ai_clients] *)

(** Which Gemini SDK the imports at the top of [main.py] found:
    [google.genai] with [types] (so [NANO_BANANA_AVAILABLE]),
    [google.generativeai], or none. *)
Inductive genai_module := GenaiNew | GenaiLegacy | GenaiNone.

(** A client constructor either builds a handle or raises. *)
Inductive built := Built (c : client) | InitError (msg : pystr).

Definition truthy_str (s : option pystr) : option pystr :=
  match s with
  | Some ((_ :: _) as v) => Some v
  | _ => None
  end.

(** [_initialize_ai_clients()]: [getenv] is [os.getenv]; [mk_nano],
    [mk_gemini] and [mk_openai] stand for [genai.Client(api_key=...)],
    [genai.configure(...); genai.GenerativeModel(...)] and
    [openai.OpenAI(api_key=...)]; [openai_imported] says whether
    [import openai] succeeded.  Log lines are left out. *)
Definition initialize_ai_clients (getenv : pystr -> option pystr)
    (genai : genai_module) (openai_imported : bool)
    (mk_nano mk_gemini mk_openai : pystr -> built) : dict client :=
  let clients : dict client := [] in
  let clients :=
    match truthy_str (getenv (py "GEMINI_API_KEY")), genai with
    | Some key, GenaiNew =>
        match mk_nano key with
        | Built c => dict_set (py "nano_banana") c clients
        | InitError _ => clients
        end
    | Some key, GenaiLegacy =>
        match mk_gemini key with
        | Built c => dict_set (py "gemini") c clients
        | InitError _ => clients
        end
    | _, _ => clients
    end in
  match truthy_str (getenv (py "OPENAI_API_KEY")), openai_imported with
  | Some key, true =>
      match mk_openai key with
      | Built c => dict_set (py "openai") c clients
      | InitError _ => clients
      end
  | _, _ => clients
  end.

(** ** The provider chain *)

(** The three blocks of [_get_ai_response] in source order: registry key,
    the request sent, and the prefix of the [logger.error] line. *)
Definition provider_chain (b : bot) (prompt system_context : pystr)
    : list (pystr * request * pystr) :=
  let ep := enhanced_prompt (brand_dna b) system_context prompt in
  [ (py "nano_banana", ModelsGenerateContent (py "gemini-2.0-flash-exp") [ep],
     py "Nano Banana text error: ");
    (py "gemini", GenerateContent ep, py "Gemini error: ");
    (py "openai",
     ChatCompletionsCreate (py "gpt-4")
       [(py "system", brand_dna b ++ [10%Z] ++ system_context);
        (py "user", prompt)] 3000,
     py "OpenAI error: ") ].

(** A fixed-priority fallback chain as §4.2 of the spec describes it: try
    each provider of [chain] present in the registry in turn, return on the
    first success, log a failure and go on to the next provider. *)
Fixpoint fallback_chain (clients : dict client) (max_length : option Z)
    (chain : list (pystr * request * pystr)) (log : list pystr)
    : pystr * list pystr :=
  match chain with
  | [] => (sentinel_no_service, log)
  | (key, req, err) :: rest =>
      match dict_get key clients with
      | Some c =>
          match c req with
          | Ok result => (clip max_length result, log)
          | Raise e => fallback_chain clients max_length rest (log ++ [err ++ e])
          end
      | None => fallback_chain clients max_length rest log
      end
  end.

(** ** Embed fields carrying a command's AI result *)

Record field := { field_name : pystr; field_value : pystr }.

Definition nl : pystr := [10%Z].

(** [cmd_social_enhanced], "Handle long social content";
    [platform_title] is [platform.title()]. *)
Definition social_post_fields (platform_title social_result : pystr)
    : list field :=
  let n := List.length social_result in
  if Nat.ltb 1024 n then
    {| field_name := py "📝 " ++ platform_title ++ py " Post (Part 1)";
       field_value := py_slice social_result 0 1024 |} ::
    (if Nat.ltb 2048 n then
       [ {| field_name := py "📝 " ++ platform_title ++ py " Post (Part 2)";
            field_value := py_slice social_result 1024 2048 |} ]
     else
       [ {| field_name := py "📝 " ++ platform_title ++ py " Post (Part 2)";
            field_value := py_slice_from social_result 1024 |} ])
  else
    [ {| field_name := py "📝 " ++ platform_title ++ py " Post";
         field_value := social_result |} ].

(** [cmd_content_enhanced], "Smart preview handling". *)
Definition content_preview_fields (content_result : pystr) : list field :=
  let n := List.length content_result in
  if Nat.ltb 1000 n then
    {| field_name := py "📋 Content Preview (Part 1)";
       field_value := py_slice content_result 0 1000 |} ::
    (if Nat.ltb 2000 n then
       [ {| field_name := py "📋 Content Preview (Part 2)";
            field_value := py_slice content_result 1000 2000 |};
         {| field_name := py "📄 Complete Content";
            field_value := py "See attached file for full article with SEO analysis" |} ]
     else
       [ {| field_name := py "📋 Content Preview (Part 2)";
            field_value := py_slice_from content_result 1000 |} ])
  else
    [ {| field_name := py "📋 Complete Content"; field_value := content_result |} ].

(** [full_content] of [cmd_content_enhanced], always attached as a file;
    [content_type_title] is [content_type.title()]. *)
Definition content_file (content_type_title topic seo_section content_result : pystr)
    : pystr :=
  py "# STAFFVIRTUAL " ++ content_type_title ++ py ": " ++ topic ++ nl ++ nl ++
  seo_section ++ nl ++ nl ++ py "## Content" ++ nl ++ nl ++ content_result.

(** [cmd_campaign_enhanced], "Smart preview handling". *)
Definition campaign_preview_fields (campaign_result : pystr) : list field :=
  let n := List.length campaign_result in
  if Nat.ltb 1000 n then
    {| field_name := py "📋 Campaign Preview (Part 1)";
       field_value := py_slice campaign_result 0 1000 |} ::
    (if Nat.ltb 2000 n then
       [ {| field_name := py "📋 Campaign Preview (Part 2)";
            field_value := py_slice campaign_result 1000 2000 |};
         {| field_name := py "📄 Complete Strategy";
            field_value := py "See attached file for full campaign strategy and asset checklist" |} ]
     else
       [ {| field_name := py "📋 Campaign Preview (Part 2)";
            field_value := py_slice_from campaign_result 1000 |} ])
  else
    [ {| field_name := py "📋 Complete Campaign Strategy";
         field_value := campaign_result |} ].

(** [campaign_content] of [cmd_campaign_enhanced], always attached. *)
Definition campaign_file (campaign_type goal duration campaign_result : pystr)
    : pystr :=
  py "# STAFFVIRTUAL Marketing Campaign: " ++ campaign_type ++ py "
## Goal: " ++ goal ++
  py "
## Duration: " ++ duration ++ py "

" ++ campaign_result ++
  py "

## Campaign Assets Checklist
- [ ] Blog posts and SEO content
- [ ] Social media graphics and posts
- [ ] Email templates and sequences
- [ ] Landing page copy and design
- [ ] Ad copy variations
- [ ] Video scripts and concepts
- [ ] Performance tracking setup

## Next Steps
1. Review and approve campaign strategy
2. Create content calendar and timeline
3. Develop creative assets
4. Set up tracking and analytics
5. Launch campaign with A/B testing
6. Monitor performance and optimize

Generated by STAFFVIRTUAL AI Marketing Suite
".

(** [range(start, stop, step)] for a positive [step]. *)
Definition py_range (start stop step : nat) : list nat :=
  map (fun k => start + k * step) (seq 0 ((stop - start + step - 1) / step)).

(** [str(n)] for a natural number. *)
Definition py_str_nat (n : nat) : pystr :=
  py (NilEmpty.string_of_uint (Nat.to_uint n)).

(** [[audit_result[i:i+1024] for i in range(0, len(audit_result), 1024)]]. *)
Definition seo_chunks (audit_result : pystr) : list pystr :=
  map (fun i => py_slice audit_result i (i + 1024))
    (py_range 0 (List.length audit_result) 1024).

(** The embed fields of [cmd_seo_audit] holding the audit, with the file
    attached to the reply ([None]: no file). *)
Definition seo_audit_reply (target_keywords audit_result : pystr)
    : list field * option pystr :=
  if Nat.ltb 1024 (List.length audit_result) then
    let chunks := seo_chunks audit_result in
    let shown := firstn 6 chunks in
    let fields :=
      map (fun '(i, chunk) =>
             {| field_name := if Nat.eqb i 0 then py "🔍 SEO Analysis"
                              else py "🔍 Continued (" ++ py_str_nat (i + 1) ++ py ")";
                field_value := chunk |})
        (combine (seq 0 (List.length shown)) shown) in
    if Nat.ltb 6 (List.length chunks) then
      (fields ++ [ {| field_name := py "📄 Complete Audit";
                      field_value := py "See attached file for full SEO analysis" |} ],
       Some (py "# STAFFVIRTUAL SEO Audit" ++ nl ++ py "## Target Keywords: " ++
             target_keywords ++ nl ++ nl ++ audit_result))
    else (fields, None)
  else ([ {| field_name := py "🔍 SEO Analysis"; field_value := audit_result |} ],
        None).

(** The field of [cmd_image] carrying a concept: [concept[:1024]]. *)
Definition image_concept_fields (concept : pystr) : list field :=
  [ {| field_name := py "🖼️ Concept"; field_value := py_slice_to concept 1024 |} ].

(** ** [parse_color] *)

Section ParseColor.
Local Open Scope Z_scope.

(** [str.isspace] on one code point, as used by [str.strip()]. *)
Definition py_isspace (c : Z) : bool :=
  ((9 <=? c) && (c <=? 13)) || ((28 <=? c) && (c <=? 32)) || Z.eqb c 133 ||
  Z.eqb c 160 || Z.eqb c 5760 || ((8192 <=? c) && (c <=? 8202)) ||
  Z.eqb c 8232 || Z.eqb c 8233 || Z.eqb c 8239 || Z.eqb c 8287 ||
  Z.eqb c 12288.

(** The blanks [int()] skips around its digits once the text has gone
    through [int_ascii]: ASCII [" \t\n\v\f\r"] ([Py_ISSPACE]). *)
Definition int_space (c : Z) : bool :=
  Z.eqb c 32 || ((9 <=? c) && (c <=? 13)).

(** The non-ASCII code points of Unicode category Nd whose decimal value
    is 0 (Unicode 14.0, the tables of CPython 3.11).  Each is followed by
    the digits 1 to 9 of its script at the next nine code points. *)
Definition decimal_zeros : list Z :=
  [1632; 1776; 1984; 2406; 2534; 2662; 2790; 2918;
   3046; 3174; 3302; 3430; 3558; 3664; 3792; 3872;
   4160; 4240; 6112; 6160; 6470; 6608; 6784; 6800;
   6992; 7088; 7232; 7248; 42528; 43216; 43264; 43472;
   43504; 43600; 44016; 65296; 66720; 68912; 69734; 69872;
   69942; 70096; 70384; 70736; 70864; 71248; 71360; 71472;
   71904; 72016; 72784; 73040; 73120; 92768; 92864; 93008;
   120782; 120792; 120802; 120812; 120822; 123200; 123632; 125264;
   130032].

Fixpoint digit_in_runs (zs : list Z) (c : Z) : option Z :=
  match zs with
  | [] => None
  | z :: r => if (z <=? c) && (c <=? z + 9) then Some (c - z) else digit_in_runs r c
  end.

(** [Py_UNICODE_TODECIMAL] on a non-ASCII code point. *)
Definition unicode_decimal (c : Z) : option Z := digit_in_runs decimal_zeros c.

(** [_PyUnicode_TransformDecimalAndSpaceToASCII], applied by [int()] to a
    [str] before parsing: code points below 127 are kept, other blanks
    become a space, other decimal digits become the ASCII digit of the
    same value, and anything else becomes ['?'] and ends the text. *)
Fixpoint int_ascii (s : pystr) : pystr :=
  match s with
  | [] => []
  | c :: r =>
      if c <? 127 then c :: int_ascii r
      else if py_isspace c then 32 :: int_ascii r
      else match unicode_decimal c with
           | Some d => (48 + d) :: int_ascii r
           | None => [63]
           end
  end.

Fixpoint lstrip_by (p : Z -> bool) (s : pystr) : pystr :=
  match s with
  | [] => []
  | c :: r => if p c then lstrip_by p r else s
  end.

Definition strip_by (p : Z -> bool) (s : pystr) : pystr :=
  rev (lstrip_by p (rev (lstrip_by p s))).

(** [s.strip()]. *)
Definition py_strip (s : pystr) : pystr := strip_by py_isspace s.

(** [s.replace('#', '')]. *)
Definition drop_hash (s : pystr) : pystr := filter (fun c => negb (Z.eqb c 35)) s.

Definition hex_val (c : Z) : option Z :=
  if (48 <=? c) && (c <=? 57) then Some (c - 48)
  else if (97 <=? c) && (c <=? 102) then Some (c - 87)
  else if (65 <=? c) && (c <=? 70) then Some (c - 55)
  else None.

(** Digits after the first one: each may be preceded by one [_]. *)
Fixpoint hex_body (s : pystr) (acc : Z) : option Z :=
  match s with
  | [] => Some acc
  | c :: r =>
      if Z.eqb c 95 then
        match r with
        | d :: r' =>
            match hex_val d with
            | Some v => hex_body r' (acc * 16 + v)
            | None => None
            end
        | [] => None
        end
      else
        match hex_val c with
        | Some v => hex_body r (acc * 16 + v)
        | None => None
        end
  end.

(** [int(s, 16)] on a [str]: after [int_ascii], surrounding blanks, an
    optional sign, an optional [0x] or [0X] prefix followed by at most one
    [_], then hex digits with single underscores between them; [None] is
    the [ValueError]. *)
Definition py_int16 (s : pystr) : option Z :=
  let s := strip_by int_space (int_ascii s) in
  let '(neg, s) :=
    match s with
    | c :: r => if Z.eqb c 45 then (true, r)
                else if Z.eqb c 43 then (false, r) else (false, s)
    | [] => (false, s)
    end in
  let s :=
    match s with
    | c0 :: c1 :: r =>
        if Z.eqb c0 48 && (Z.eqb c1 120 || Z.eqb c1 88) then
          match r with
          | u :: r' => if Z.eqb u 95 then r' else r
          | [] => r
          end
        else s
    | _ => s
    end in
  match s with
  | c :: r =>
      match hex_val c with
      | Some v =>
          match hex_body r v with
          | Some n => Some (if neg then - n else n)
          | None => None
          end
      | None => None
      end
  | [] => None
  end.

(** [parse_color(color_str, default)] of [SVDiscordBot.__init__];
    [color_str] is what [os.getenv] returns.  [None] means an exception
    leaves the function: only [int(default...)] inside the [except]
    handler can raise that far. *)
Definition parse_color (color_str : option pystr) (default : pystr) : option Z :=
  let from_default := py_int16 (drop_hash default) in
  match color_str with
  | None => from_default
  | Some s =>
      if pystr_eqb s [] || pystr_eqb (py_strip s) [] then from_default
      else
        let color_clean := py_strip (drop_hash s) in
        if Nat.eqb (List.length color_clean) 6 then
          match py_int16 color_clean with
          | Some v => Some v
          | None => from_default
          end
        else from_default
  end.

End ParseColor.


(** Number of manual knowledge entries of a bot. *)
Definition kb_count (b : bot) : nat :=
  match knowledge_base b with
  | Some kb => List.length (manual_entries kb)
  | None => 0
  end.


(** ** Concrete bots *)

(** A client that answers with the text it was sent. *)
Definition echo_client : client :=
  fun req =>
    match req with
    | ModelsGenerateContent _ [p] => Ok p
    | GenerateContent p => Ok p
    | ChatCompletionsCreate _ msgs _ => Ok (concat (map snd msgs))
    | ModelsGenerateContent _ _ => Raise (py "unexpected contents")
    end.

Definition const_client (text : pystr) : client := fun _ => Ok text.

Definition failing_client (msg : pystr) : client := fun _ => Raise msg.

Definition bot_with (clients : dict client) (kb : option knowledge_base_t) : bot :=
  {| brand_dna := brand_dna_text; ai_clients := clients; knowledge_base := kb |}.

(** A knowledge base with one manual entry about refunds. *)
Definition refund_kb : knowledge_base_t :=
  {| manual_entries :=
       [(py "refund policy",
         {| entry_content := py "Refunds are issued within 30 days.";
            entry_type := py "manual" |})];
     scraped_content := [] |}.

(** The chunk fields [cmd_seo_audit] adds for a long audit. *)
Definition seo_shown_fields (r : pystr) : list field :=
  map (fun '(i, chunk) =>
         {| field_name := if Nat.eqb i 0 then py "🔍 SEO Analysis"
                          else py "🔍 Continued (" ++ py_str_nat (i + 1) ++ py ")";
            field_value := chunk |})
    (combine (seq 0 (List.length (firstn 6 (seo_chunks r)))) (firstn 6 (seo_chunks r))).

(** The closing field of a long audit. *)
Definition seo_note : field :=
  {| field_name := py "📄 Complete Audit";
     field_value := py "See attached file for full SEO analysis" |}.

(** ** [_extract_seo_keywords] *)

(** Python's Unicode tables enter as two functions: [lower] is
    [str.lower] and [is_word c] says whether [c] matches [\w] in a [str]
    pattern. *)

Definition is_ascii_letter (c : Z) : bool :=
  ((65 <=? c) && (c <=? 90))%Z || ((97 <=? c) && (c <=? 122))%Z.

(** [\b] at position [i] of [s]: a word character on exactly one side,
    the outside of the string counting as a non-word character. *)
Definition at_boundary (is_word : Z -> bool) (s : pystr) (i : nat) : bool :=
  let before := match i with
                | 0 => false
                | S j => match nth_error s j with
                         | Some c => is_word c
                         | None => false
                         end
                end in
  let after := match nth_error s i with
               | Some c => is_word c
               | None => false
               end in
  xorb before after.

(** The number of ASCII letters [s] starts with. *)
Fixpoint letter_run (s : pystr) : nat :=
  match s with
  | c :: r => if is_ascii_letter c then S (letter_run r) else 0
  | [] => 0
  end.

(** The greedy [{3,}]: the lengths [n], [n-1], ..., [3] are tried in turn
    and the first one accepted by [ok] is taken. *)
Fixpoint try_lengths (ok : nat -> bool) (n : nat) : option nat :=
  match n with
  | 0 => None
  | S m => if Nat.leb 3 n && ok n then Some n else try_lengths ok m
  end.

(** A match of [\b[a-zA-Z]{3,}\b] starting at position [i]: its length. *)
Definition word_match_at (is_word : Z -> bool) (s : pystr) (i : nat)
    : option nat :=
  if at_boundary is_word s i then
    try_lengths (fun n => at_boundary is_word s (i + n))
      (letter_run (skipn i s))
  else None.

(** [re.findall] from position [i]: after a match the search resumes
    where it ended, otherwise one position further; [fuel] bounds the
    positions left. *)
Fixpoint findall_from (is_word : Z -> bool) (s : pystr) (i fuel : nat)
    : list pystr :=
  match fuel with
  | 0 => []
  | S f =>
      match word_match_at is_word s i with
      | Some n => py_slice s i (i + n) :: findall_from is_word s (i + n) f
      | None => findall_from is_word s (S i) f
      end
  end.

(** [re.findall(r'\b[a-zA-Z]{3,}\b', s)]. *)
Definition find_words (is_word : Z -> bool) (s : pystr) : list pystr :=
  findall_from is_word s 0 (S (List.length s)).

(** [sep.join(l)]. *)
Definition py_join (sep : pystr) (l : list pystr) : pystr :=
  match l with
  | [] => []
  | x :: r => x ++ concat (map (fun w => sep ++ w) r)
  end.

(** [s.replace(' ', '')]. *)
Definition drop_spaces (s : pystr) : pystr :=
  filter (fun c => negb (Z.eqb c 32)) s.

Definition industry_keywords : list pystr :=
  [py "virtual assistant"; py "remote work"; py "virtual staffing";
   py "business efficiency"; py "productivity"; py "outsourcing";
   py "remote team"; py "virtual team"; py "business growth";
   py "cost savings"; py "scalability"; py "flexibility";
   py "expert talent"; py "professional services"].

(** [_extract_seo_keywords(content)] for a [str] [content]; the bare
    [except:] returning three fixed keywords guards statements that do not
    raise on a [str]. *)
Definition extract_seo_keywords (lower : pystr -> pystr) (is_word : Z -> bool)
    (content : pystr) : list pystr :=
  let words := find_words is_word (lower content) in
  let found :=
    filter (fun keyword =>
              py_contains (py_join (py " ") words) (drop_spaces keyword) ||
              py_contains (lower content) keyword)
      industry_keywords in
  firstn 10 found.

(** ** [_generate_nano_banana_image] *)

(** A part of [response.candidates[0].content.parts]: [Some data] when its
    [inline_data] is set. *)
Definition part := option (list Z).

(** What the Nano Banana client's [models.generate_content] call, with the
    reading of [response.candidates[0].content.parts], comes to: the
    parts, or the message of an exception raised on the way. *)
Inductive image_response :=
| ImgParts (parts : list part)
| ImgRaise (msg : pystr).

(** [Image.open(...)], [NamedTemporaryFile(...)] and [image.save(...)]:
    the name of the file written, or the message of the exception. *)
Inductive saved := Saved (path : pystr) | SaveError (msg : pystr).

(** The two shapes of the dict returned:
    [{"success": True, "image_path": ..., "description": ..., "model": ...}]
    and [{"success": False, "error": ...}]. *)
Inductive image_result :=
| ImageSuccess (image_path description model : pystr)
| ImageFailure (error : pystr).

(** The loop over the parts; [pil] says whether [from PIL import Image]
    succeeded. *)
Fixpoint scan_parts (pil : bool) (save_png : list Z -> saved)
    (parts : list part) : image_result :=
  match parts with
  | [] => ImageFailure (py "No image data received")
  | Some data :: rest =>
      if pil then
        match save_png data with
        | Saved path =>
            ImageSuccess path (py "STAFFVIRTUAL branded image generated")
              (py "gemini-2.5-flash-image-preview")
        | SaveError e => ImageFailure e
        end
      else scan_parts pil save_png rest
  | None :: rest => scan_parts pil save_png rest
  end.

Definition branded_image_prompt (prompt style : pystr) : pystr :=
  py "Create professional STAFFVIRTUAL image: " ++ prompt ++ py ". Style: " ++
  style ++ py ". Brand colors: blue (#1888FF), off-white (#F8F8EB), dark blue (#004B8D). Professional, modern, clean aesthetic for virtual staffing company. High-quality business imagery suitable for marketing.".

(** [_generate_nano_banana_image(prompt, style)]; [gen] is how the
    registered Nano Banana client answers an image request. *)
Definition generate_nano_banana_image (b : bot)
    (gen : request -> image_response) (pil : bool)
    (save_png : list Z -> saved) (prompt style : pystr) : image_result :=
  match dict_get (py "nano_banana") (ai_clients b) with
  | None => ImageFailure (py "Nano Banana not available")
  | Some _ =>
      match gen (ModelsGenerateContent (py "gemini-2.5-flash-image-preview")
                   [branded_image_prompt prompt style]) with
      | ImgRaise e => ImageFailure e
      | ImgParts parts => scan_parts pil save_png parts
      end
  end.

(** ** [cmd_image] *)

(** What [cmd_image] sends: an embed showing the generated image (its
    description, the file attached from [image_path] under [filename], and
    the image URL of the embed), or an embed holding a text concept. *)
Inductive image_reply :=
| ImageReply (description image_path filename image_url : pystr)
| ConceptReply (concept_fields : list field).

(** [prompt.replace(' ', '_')[:20]]. *)
Definition image_stem (prompt : pystr) : pystr :=
  py_slice_to (map (fun c => if Z.eqb c 32 then 95%Z else c) prompt) 20.

(** [cmd_image(interaction, prompt, style)]: [result['success'] and
    result.get('image_path')] selects the image reply. *)
Definition cmd_image (b : bot) (gen : request -> image_response) (pil : bool)
    (save_png : list Z -> saved) (prompt style : pystr) : image_reply :=
  let concept_reply :=
    ConceptReply (image_concept_fields
      (fst (get_ai_response b
              (py "Create detailed STAFFVIRTUAL image concept: " ++ prompt ++
               py ", style: " ++ style)
              (py "Expert image concept designer specializing in virtual staffing company branding")
              true None))) in
  match generate_nano_banana_image b gen pil save_png prompt style with
  | ImageSuccess path _ _ =>
      match path with
      | [] => concept_reply
      | _ :: _ =>
          ImageReply (py "**Prompt:** " ++ prompt ++ nl ++ py "**Style:** " ++ style)
            path (py "staffvirtual_" ++ image_stem prompt ++ py ".png")
            (py "attachment://staffvirtual_" ++ image_stem prompt ++ py ".png")
      end
  | ImageFailure _ => concept_reply
  end.

(** ** Helpers for stating properties *)

(** The entries of [chain] whose key the registry holds, with the handle. *)
Fixpoint registered (cs : dict client) (chain : list (pystr * request * pystr))
    : list (request * pystr * client) :=
  match chain with
  | [] => []
  | (key, req, err) :: rest =>
      match dict_get key cs with
      | Some c => (req, err, c) :: registered cs rest
      | None => registered cs rest
      end
  end.

Fixpoint nodupb (l : list pystr) : bool :=
  match l with
  | [] => true
  | x :: r => negb (existsb (pystr_eqb x) r) && nodupb r
  end.

(** An [os.getenv] with neither API key set. *)
Definition no_keys_env : pystr -> option pystr := fun _ => None.


(** A Nano Banana client whose image answer holds no inline data. *)
Definition textual_image_api : request -> image_response :=
  fun _ => ImgParts [None].

(** The titles of the manual knowledge entries, in dict order. *)
Definition kb_titles (b : bot) : list pystr :=
  match knowledge_base b with
  | Some kb => map fst (manual_entries kb)
  | None => []
  end.

(** [str.lower] and [\w] on ASCII text, to evaluate on concrete inputs. *)
Definition ascii_lower (s : pystr) : pystr :=
  map (fun c => if ((65 <=? c) && (c <=? 90))%Z then (c + 32)%Z else c) s.

Definition ascii_word (c : Z) : bool :=
  is_ascii_letter c || ((48 <=? c) && (c <=? 57))%Z || Z.eqb c 95.

(** * Lemmas *)

Lemma pystr_eqb_eq (a b : pystr) : pystr_eqb a b = true <-> a = b.
Proof.
  revert b; induction a as [|x a IH]; intros [|y b]; simpl;
    try (split; congruence).
  rewrite andb_true_iff, Z.eqb_eq, IH.
  split; [intros [-> ->]; reflexivity | intros H; injection H; auto].
Qed.

Lemma pystr_eqb_refl (a : pystr) : pystr_eqb a a = true.
Proof. apply pystr_eqb_eq; reflexivity. Qed.

Lemma dict_set_twice {V} (k : pystr) (v1 v2 : V) (d : dict V) :
  dict_set k v2 (dict_set k v1 d) = dict_set k v2 d.
Proof.
  induction d as [|[k' v'] d IH]; simpl.
  - rewrite pystr_eqb_refl; reflexivity.
  - destruct (pystr_eqb k k') eqn:E; simpl.
    + rewrite pystr_eqb_refl; reflexivity.
    + rewrite E, IH; reflexivity.
Qed.

Lemma dict_set_length {V} (k : pystr) (v v' : V) (d : dict V) :
  List.length (dict_set k v d) = List.length (dict_set k v' d).
Proof.
  induction d as [|[k0 v0] d IH]; simpl; [reflexivity|].
  destruct (pystr_eqb k k0); simpl; auto.
Qed.

Lemma dict_get_set {V} (k k' : pystr) (v : V) (d : dict V) :
  dict_get k (dict_set k' v d) =
  if pystr_eqb k k' then Some v else dict_get k d.
Proof.
  induction d as [|[k0 v0] d IH]; simpl; [reflexivity|].
  destruct (pystr_eqb k' k0) eqn:E0; simpl.
  - apply pystr_eqb_eq in E0; subst k0.
    destruct (pystr_eqb k k'); reflexivity.
  - rewrite IH. destruct (pystr_eqb k k0) eqn:E1, (pystr_eqb k k') eqn:E2;
      auto.
    apply pystr_eqb_eq in E1, E2; subst; rewrite pystr_eqb_refl in E0;
      discriminate.
Qed.

Lemma py_startswith_app (n c : pystr) : py_startswith (n ++ c) n = true.
Proof.
  induction n as [|x n IH]; simpl; [reflexivity|].
  rewrite Z.eqb_refl, IH; reflexivity.
Qed.

Lemma py_contains_start (h n : pystr) :
  py_startswith h n = true -> py_contains h n = true.
Proof. destruct h; simpl; intros ->; auto. Qed.

Lemma py_contains_app_l (a h n : pystr) :
  py_contains h n = true -> py_contains (a ++ h) n = true.
Proof.
  induction a as [|x a IH]; simpl; auto.
  intros H; rewrite IH by exact H; apply orb_true_r.
Qed.

Lemma py_contains_infix (a n c : pystr) : py_contains (a ++ n ++ c) n = true.
Proof.
  apply py_contains_app_l, py_contains_start, py_startswith_app.
Qed.

(** The chain written out in [_get_ai_response] is the fallback chain over
    its three providers. *)
Lemma get_ai_response_as_chain (b : bot) (prompt ctx : pystr) (uk : bool)
    (ml : option Z) :
  get_ai_response b prompt ctx uk ml =
  fallback_chain (ai_clients b) ml (provider_chain b prompt ctx) [].
Proof. reflexivity. Qed.

Lemma fallback_chain_all_fail (cs : dict client) (ml : option Z)
    (chain : list (pystr * request * pystr)) (log : list pystr) :
  (forall key req err c, In (key, req, err) chain -> dict_get key cs = Some c ->
     exists e, c req = Raise e) ->
  fst (fallback_chain cs ml chain log) = sentinel_no_service.
Proof.
  revert log; induction chain as [|[[key req] err] chain IH]; intros log H;
    simpl; [reflexivity|].
  destruct (dict_get key cs) as [c|] eqn:Hc.
  - destruct (H key req err c (or_introl eq_refl) Hc) as [e ->].
    apply IH; intros; eapply H; [right|]; eauto.
  - apply IH; intros; eapply H; [right|]; eauto.
Qed.

Lemma fallback_chain_result (cs : dict client) (ml : option Z)
    (chain : list (pystr * request * pystr)) (log : list pystr) :
  fst (fallback_chain cs ml chain log) = sentinel_no_service \/
  exists key req err c r,
    In (key, req, err) chain /\ dict_get key cs = Some c /\ c req = Ok r /\
    fst (fallback_chain cs ml chain log) = clip ml r.
Proof.
  revert log; induction chain as [|[[key req] err] chain IH]; intros log;
    simpl; [left; reflexivity|].
  destruct (dict_get key cs) as [c|] eqn:Hc.
  - destruct (c req) as [r|e] eqn:Hr.
    + right; exists key, req, err, c, r; simpl; auto.
    + destruct (IH (log ++ [err ++ e])) as [H|(k & q & er & c' & r & H1 & H2)];
        [left; exact H|right; exists k, q, er, c', r; intuition].
  - destruct (IH log) as [H|(k & q & er & c' & r & H1 & H2)];
      [left; exact H|right; exists k, q, er, c', r; intuition].
Qed.

Lemma fallback_chain_cases (cs : dict client) (ml : option Z)
    (chain : list (pystr * request * pystr)) (log : list pystr) :
  (fst (fallback_chain cs ml chain log) = sentinel_no_service /\
   forall key req err c, In (key, req, err) chain -> dict_get key cs = Some c ->
     exists e, c req = Raise e) \/
  exists key req err c r,
    In (key, req, err) chain /\ dict_get key cs = Some c /\ c req = Ok r /\
    fst (fallback_chain cs ml chain log) = clip ml r.
Proof.
  revert log; induction chain as [|[[key req] err] chain IH]; intros log;
    simpl.
  - left; split; [reflexivity|intros ? ? ? ? []].
  - destruct (dict_get key cs) as [c|] eqn:Hc.
    + destruct (c req) as [r|e] eqn:Hr.
      * right; exists key, req, err, c, r; auto.
      * destruct (IH (log ++ [err ++ e]))
          as [[H Hall]|(k & q & er & c' & r & H1 & H2)];
          [left; split; [exact H|]|right; exists k, q, er, c', r; intuition].
        intros k q er c' [Eq|Hin] Hk; [|eapply Hall; eauto].
        injection Eq as <- <- <-; rewrite Hc in Hk; injection Hk as <-; eauto.
    + destruct (IH log) as [[H Hall]|(k & q & er & c' & r & H1 & H2)];
        [left; split; [exact H|]|right; exists k, q, er, c', r; intuition].
      intros k q er c' [Eq|Hin] Hk; [|eapply Hall; eauto].
      injection Eq as <- <- <-; rewrite Hc in Hk; discriminate.
Qed.


(** * Claims *)



(** C2.  With an empty registry, or when every provider call made raises,
    [_get_ai_response] returns the fixed sentinel
    "❌ No AI service available.", which starts with "❌". *)
Theorem get_ai_response_no_service (b : bot) (prompt ctx : pystr) (uk : bool)
    (ml : option Z) :
  (ai_clients b = [] \/
   forall key req err c, In (key, req, err) (provider_chain b prompt ctx) ->
     dict_get key (ai_clients b) = Some c -> exists e, c req = Raise e) ->
  fst (get_ai_response b prompt ctx uk ml) = sentinel_no_service /\
  py_startswith sentinel_no_service (py "❌") = true.
Proof.
  intros H; split; [|reflexivity].
  rewrite get_ai_response_as_chain.
  apply fallback_chain_all_fail.
  destruct H as [H|H]; [|exact H].
  intros key req err c _; rewrite H; discriminate.
Qed.

Lemma get_ai_response_no_service_witness :
  fst (get_ai_response
         (bot_with [(py "openai", failing_client (py "quota exceeded"))] None)
         (py "test") (py "brand") true None) = sentinel_no_service /\
  py_startswith sentinel_no_service (py "❌") = true.
Proof.
  apply get_ai_response_no_service.
  right; intros key req err c _ Hc.
  exists (py "quota exceeded").
  simpl in Hc.
  destruct (pystr_eqb key (py "openai")); [|discriminate].
  injection Hc as <-; reflexivity.
Defined.

(** C8.  Adding [(t, c1)] and then [(t, c2)] with [_add_to_knowledge_base]
    leaves the same bot as adding [(t, c2)] alone, and the second addition
    does not change the number of entries. *)
Theorem add_to_knowledge_base_overwrites (b : bot) (t c1 c2 : pystr) :
  snd (add_to_knowledge_base (snd (add_to_knowledge_base b t c1)) t c2) =
    snd (add_to_knowledge_base b t c2) /\
  kb_count (snd (add_to_knowledge_base (snd (add_to_knowledge_base b t c1)) t c2)) =
    kb_count (snd (add_to_knowledge_base b t c1)).
Proof.
  unfold add_to_knowledge_base, kb_count; simpl.
  rewrite dict_set_twice; split; [reflexivity|].
  apply dict_set_length.
Qed.

(** The f-string of [_get_ai_response] with its two labels split out. *)
Lemma enhanced_prompt_split (brand ctx prompt : pystr) :
  enhanced_prompt brand ctx prompt =
  py "
            " ++ brand ++ py "
            
            " ++ py "Your Expert Role: " ++
  ctx ++ py "
            
            " ++ py "User Request: " ++ prompt ++
  py "
            
            Instructions:
            1. Provide comprehensive, detailed responses (aim for 1500-3000 words for blog content)
            2. Include specific STAFFVIRTUAL examples, case studies, and value propositions
            3. Reference our actual services and competitive advantages
            4. Use industry statistics and credible data points
            5. Maintain professional yet engaging tone
            6. Include actionable next steps and clear calls-to-action
            7. For SEO content, naturally integrate relevant keywords
            8. Position STAFFVIRTUAL as the premium choice in virtual staffing
            
            Create expert-level content that demonstrates deep industry knowledge and STAFFVIRTUAL expertise.
            ".
Proof.
  unfold enhanced_prompt.
  change (py "
            
            Your Expert Role: ") with (py "
            
            " ++ py "Your Expert Role: ").
  change (py "
            
            User Request: ") with (py "
            
            " ++ py "User Request: ").
  rewrite <- !app_assoc; reflexivity.
Qed.

(** C3 (corrected).  [use_knowledge] and the knowledge base play no part
    in [_get_ai_response]: its answer is the same for any knowledge base
    and either flag.  The Nano Banana and legacy Gemini calls are sent
    [enhanced_prompt] (brand DNA, role, "User Request:" label, request,
    fixed instructions); the OpenAI call is sent the system message
    brand DNA, newline, system context, and the raw request as the user
    message.  None of the three requests depends on the knowledge base. *)
Theorem get_ai_response_ignores_knowledge (d : pystr) (cs : dict client)
    (kb : option knowledge_base_t) (prompt ctx : pystr) (uk : bool)
    (ml : option Z) :
  get_ai_response {| brand_dna := d; ai_clients := cs; knowledge_base := kb |}
    prompt ctx uk ml =
  get_ai_response {| brand_dna := d; ai_clients := cs; knowledge_base := None |}
    prompt ctx false ml /\
  map (fun '(_, req, _) => req)
      (provider_chain {| brand_dna := d; ai_clients := cs; knowledge_base := kb |}
         prompt ctx) =
    [ModelsGenerateContent (py "gemini-2.0-flash-exp")
       [enhanced_prompt d ctx prompt];
     GenerateContent (enhanced_prompt d ctx prompt);
     ChatCompletionsCreate (py "gpt-4")
       [(py "system", d ++ [10%Z] ++ ctx); (py "user", prompt)] 3000].
Proof. split; reflexivity. Qed.

(** C3 counterexample: with a knowledge entry titled "refund policy" and
    the request "refund policy", [use_knowledge = true] sends the plain
    [enhanced_prompt], which does not contain the entry's content. *)
Lemma get_ai_response_no_knowledge_block :
  fst (get_ai_response (bot_with [(py "nano_banana", echo_client)] (Some refund_kb))
         (py "refund policy") (py "brand") true None) =
    enhanced_prompt brand_dna_text (py "brand") (py "refund policy") /\
  py_contains
    (fst (get_ai_response (bot_with [(py "nano_banana", echo_client)] (Some refund_kb))
            (py "refund policy") (py "brand") true None))
    (py "Refunds are issued within 30 days") = false.
Proof. split; vm_compute; reflexivity. Qed.

(** C5.  The prompt assembled by [_get_ai_response] is non-empty, contains
    the user request, and is laid out as: brand DNA, the role
    ("Your Expert Role: " and the system context), the label
    "User Request: ", the request, then the fixed instructions. *)
Theorem enhanced_prompt_layout (brand ctx prompt : pystr) :
  (exists pre mid1 mid2 post,
     enhanced_prompt brand ctx prompt =
     pre ++ brand ++ mid1 ++ py "Your Expert Role: " ++ ctx ++ mid2 ++
     py "User Request: " ++ prompt ++ post) /\
  enhanced_prompt brand ctx prompt <> [] /\
  py_contains (enhanced_prompt brand ctx prompt) prompt = true.
Proof.
  rewrite enhanced_prompt_split.
  split; [do 4 eexists; reflexivity|split].
  - intros H; apply (f_equal (@List.length Z)) in H.
    rewrite length_app in H; simpl in H; discriminate H.
  - rewrite !app_assoc, <- (app_assoc _ prompt).
    apply py_contains_app_l, py_contains_start, py_startswith_app.
Qed.

(** C6 (corrected).  There is no agent-type table and no failure for an
    unknown one: [system_context] is free text.  Whatever its value,
    [_get_ai_response] runs the provider chain (Nano Banana, legacy Gemini,
    OpenAI, each skipped when absent and falling through when it raises),
    with [system_context] after "Your Expert Role: " in the prompt of the
    two Gemini calls and after the brand DNA and a newline in the OpenAI
    system message.  The answer is either the text of a registered call
    that succeeded (clipped by [max_length]) or, when every registered
    call raised (in particular with an empty registry), the "no service"
    sentinel. *)
Theorem get_ai_response_any_context (b : bot) (prompt ctx : pystr) (uk : bool)
    (ml : option Z) :
  get_ai_response b prompt ctx uk ml =
    fallback_chain (ai_clients b) ml (provider_chain b prompt ctx) [] /\
  map (fun '(k, req, _) => (k, req)) (provider_chain b prompt ctx) =
    [(py "nano_banana",
      ModelsGenerateContent (py "gemini-2.0-flash-exp")
        [enhanced_prompt (brand_dna b) ctx prompt]);
     (py "gemini", GenerateContent (enhanced_prompt (brand_dna b) ctx prompt));
     (py "openai",
      ChatCompletionsCreate (py "gpt-4")
        [(py "system", brand_dna b ++ [10%Z] ++ ctx); (py "user", prompt)] 3000)] /\
  py_contains (enhanced_prompt (brand_dna b) ctx prompt)
    (py "Your Expert Role: " ++ ctx) = true /\
  ((fst (get_ai_response b prompt ctx uk ml) = sentinel_no_service /\
    forall key req err c, In (key, req, err) (provider_chain b prompt ctx) ->
      dict_get key (ai_clients b) = Some c -> exists e, c req = Raise e) \/
   exists key req err c r,
     In (key, req, err) (provider_chain b prompt ctx) /\
     dict_get key (ai_clients b) = Some c /\ c req = Ok r /\
     fst (get_ai_response b prompt ctx uk ml) = clip ml r) /\
  (ai_clients b = [] ->
   get_ai_response b prompt ctx uk ml = (sentinel_no_service, [])).
Proof.
  split; [apply get_ai_response_as_chain|].
  split; [reflexivity|].
  split.
  - rewrite enhanced_prompt_split, (app_assoc (py "Your Expert Role: ") ctx).
    do 3 apply py_contains_app_l.
    apply py_contains_start, py_startswith_app.
  - split.
    + rewrite get_ai_response_as_chain; apply fallback_chain_cases.
    + intros He; rewrite get_ai_response_as_chain, He; reflexivity.
Qed.

(** C6 counterexample: the selector "not_an_agent_type" is no known agent
    key, yet the prompt is assembled and sent (an echoing client returns
    it). *)
Lemma get_ai_response_unknown_agent_type :
  fst (get_ai_response (bot_with [(py "nano_banana", echo_client)] None)
         (py "test") (py "not_an_agent_type") true None) =
  enhanced_prompt brand_dna_text (py "not_an_agent_type") (py "test").
Proof. vm_compute; reflexivity. Qed.

Lemma clip_long (m : Z) (r : pystr) :
  (0 < m)%Z -> (Z.of_nat (List.length r) > m)%Z ->
  clip (Some m) r = firstn (Z.to_nat m) r ++ py "..." /\
  Z.of_nat (List.length (clip (Some m) r)) = (m + 3)%Z.
Proof.
  intros Hm Hr.
  assert (E : clip (Some m) r = firstn (Z.to_nat m) r ++ py "...").
  { unfold clip, py_slice_to.
    replace (Z.eqb m 0) with false by (symmetry; apply Z.eqb_neq; lia).
    replace (Z.of_nat (List.length r) >? m)%Z with true
      by (symmetry; apply Z.gtb_lt; lia).
    replace (m <? 0)%Z with false by (symmetry; apply Z.ltb_ge; lia).
    reflexivity. }
  split; [exact E|].
  rewrite E, length_app, length_firstn.
  change (List.length (py "...")) with 3%nat.
  rewrite Nat.min_l by lia; lia.
Qed.

Lemma clip_short (ml : option Z) (r : pystr) :
  ml = None \/ ml = Some 0%Z \/
  (exists m, ml = Some m /\ (0 <= m)%Z /\ (Z.of_nat (List.length r) <= m)%Z) ->
  clip ml r = r.
Proof.
  intros [->|[->|(m & -> & H0 & H1)]]; unfold clip; try reflexivity.
  replace (Z.of_nat (List.length r) >? m)%Z with false
    by (symmetry; rewrite Z.gtb_ltb; apply Z.ltb_ge; lia).
  rewrite andb_false_r; reflexivity.
Qed.

(** C10 (corrected).  What [_get_ai_response] returns is the sentinel or
    the text [r] of a provider call passed through the [max_length]
    clipping: for a positive [max_length] shorter than [r], the first
    [max_length] characters and "..." ([max_length + 3] characters); for
    [max_length] unset, [0], or at least [len(r)], [r] itself. *)
Theorem get_ai_response_max_length (b : bot) (prompt ctx : pystr) (uk : bool)
    (ml : option Z) :
  fst (get_ai_response b prompt ctx uk ml) = sentinel_no_service \/
  exists key req err c r,
    In (key, req, err) (provider_chain b prompt ctx) /\
    dict_get key (ai_clients b) = Some c /\ c req = Ok r /\
    fst (get_ai_response b prompt ctx uk ml) = clip ml r /\
    (forall m, ml = Some m -> (0 < m)%Z -> (Z.of_nat (List.length r) > m)%Z ->
       fst (get_ai_response b prompt ctx uk ml) = firstn (Z.to_nat m) r ++ py "..." /\
       Z.of_nat (List.length (fst (get_ai_response b prompt ctx uk ml))) = (m + 3)%Z) /\
    (ml = None \/ ml = Some 0%Z \/
     (exists m, ml = Some m /\ (0 <= m)%Z /\ (Z.of_nat (List.length r) <= m)%Z) ->
     fst (get_ai_response b prompt ctx uk ml) = r).
Proof.
  rewrite get_ai_response_as_chain.
  destruct (fallback_chain_result (ai_clients b) ml (provider_chain b prompt ctx) [])
    as [H|(key & req & err & c & r & H1 & H2 & H3 & H4)]; [left; exact H|].
  right; exists key, req, err, c, r.
  do 4 (split; [assumption|]); split.
  - intros m -> Hm Hr; rewrite H4; apply clip_long; auto.
  - intros H; rewrite H4; apply clip_short; exact H.
Qed.

(** C10 counterexample: with [max_length = 0] a three-character answer is
    longer than [max_length], yet it is returned unchanged, not as
    [result[:0] + "..."]. *)
Lemma get_ai_response_max_length_zero :
  fst (get_ai_response (bot_with [(py "nano_banana", const_client (py "abc"))] None)
         (py "test") (py "brand") true (Some 0%Z)) = py "abc" /\
  (Z.of_nat (List.length (py "abc")) > 0)%Z /\
  py "abc" <> firstn 0 (py "abc") ++ py "...".
Proof.
  split; [vm_compute; reflexivity|split; [vm_compute; reflexivity|]].
  intros H; vm_compute in H; discriminate H.
Qed.

(** ** Chunking lemmas *)

Lemma firstn_plus {A} (a b : nat) (l : list A) :
  firstn (a + b) l = firstn a l ++ firstn b (skipn a l).
Proof.
  revert l; induction a as [|a IH]; intros [|x l]; simpl; auto.
  - destruct b; reflexivity.
  - f_equal; apply IH.
Qed.

Lemma firstn_seq' (n s k : nat) : firstn n (seq s k) = seq s (Nat.min n k).
Proof.
  revert s k; induction n as [|n IH]; intros s [|k]; simpl; auto.
  f_equal; apply IH.
Qed.

Lemma map_snd_combine_seq {A} (s : nat) (l : list A) :
  map snd (combine (seq s (List.length l)) l) = l.
Proof.
  revert s; induction l as [|x l IH]; intros s; simpl; auto.
  f_equal; apply IH.
Qed.

Lemma py_slice_1024 (r : pystr) (i : nat) :
  py_slice r i (i + 1024) = firstn 1024 (skipn i r).
Proof. unfold py_slice; f_equal; lia. Qed.

Lemma concat_slices (r : pystr) (j m : nat) :
  concat (map (fun i => py_slice r i (i + 1024))
            (map (fun k => 0 + k * 1024) (seq j m))) =
  firstn (m * 1024) (skipn (j * 1024) r).
Proof.
  revert j; induction m as [|m IH]; intros j; [reflexivity|].
  cbn [seq map concat]; rewrite IH, py_slice_1024.
  replace (S m * 1024) with (1024 + m * 1024) by lia.
  rewrite firstn_plus, skipn_skipn.
  do 2 f_equal; lia.
Qed.

Lemma seo_chunk_count (r : pystr) :
  List.length (seo_chunks r) = (List.length r + 1023) / 1024.
Proof.
  unfold seo_chunks, py_range.
  rewrite !length_map, length_seq; f_equal; lia.
Qed.

(** [k = ceil(len / 1024)] for the number [k] of chunks. *)
Lemma chunk_count_bounds (n : nat) :
  n <= (n + 1023) / 1024 * 1024 /\
  ((n + 1023) / 1024 <= 6 <-> n <= 6 * 1024) /\
  (1024 < n -> 2 <= (n + 1023) / 1024).
Proof.
  pose proof (Nat.div_mod_eq (n + 1023) 1024).
  pose proof (Nat.mod_upper_bound (n + 1023) 1024 ltac:(lia)).
  lia.
Qed.

Lemma seo_audit_reply_file (kw r : pystr) :
  snd (seo_audit_reply kw r) =
  if Nat.ltb 1024 (List.length r) && Nat.ltb 6 (List.length (seo_chunks r))
  then Some (py "# STAFFVIRTUAL SEO Audit" ++ nl ++ py "## Target Keywords: " ++
             kw ++ nl ++ nl ++ r)
  else None.
Proof.
  unfold seo_audit_reply; cbv zeta.
  destruct (Nat.ltb 1024 _), (Nat.ltb 6 _); reflexivity.
Qed.

Lemma seo_audit_reply_long (kw r : pystr) :
  1024 < List.length r ->
  fst (seo_audit_reply kw r) =
  if Nat.ltb 6 (List.length (seo_chunks r))
  then seo_shown_fields r ++ [seo_note] else seo_shown_fields r.
Proof.
  intros H; unfold seo_audit_reply.
  rewrite (proj2 (Nat.ltb_lt _ _) H).
  destruct (Nat.ltb 6 _); reflexivity.
Qed.

Lemma seo_shown_values (r : pystr) :
  map field_value (seo_shown_fields r) = firstn 6 (seo_chunks r).
Proof.
  unfold seo_shown_fields; rewrite map_map.
  rewrite (map_ext _ snd) by (intros [i c]; reflexivity).
  apply map_snd_combine_seq.
Qed.

Lemma seo_shown_length (r : pystr) :
  List.length (seo_shown_fields r) = Nat.min 6 (List.length (seo_chunks r)).
Proof.
  unfold seo_shown_fields.
  rewrite length_map, length_combine, length_seq, length_firstn; lia.
Qed.

Lemma seo_shown_concat (r : pystr) :
  concat (firstn 6 (seo_chunks r)) = firstn (6 * 1024) r.
Proof.
  unfold seo_chunks, py_range.
  rewrite !firstn_map, firstn_seq', concat_slices, skipn_O.
  pose proof (chunk_count_bounds (List.length r)) as (H1 & H2 & _).
  rewrite Nat.sub_0_r.
  destruct (Nat.le_gt_cases ((List.length r + 1024 - 1) / 1024) 6) as [Hk|Hk].
  - rewrite Nat.min_r by exact Hk.
    replace (List.length r + 1024 - 1) with (List.length r + 1023) in * by lia.
    rewrite !firstn_all2 by lia; reflexivity.
  - rewrite Nat.min_l by lia; reflexivity.
Qed.

(** C4 (corrected).  In [cmd_social_enhanced] and [cmd_seo_audit] a result
    of exactly 1024 characters fills one field and one of 1025 characters
    at least two; [cmd_content_enhanced] and [cmd_campaign_enhanced] split
    their previews at 1000 characters instead, so a result of 1001 to 1024
    characters already takes two fields; [cmd_image] puts [concept[:1024]]
    in one field. *)
Theorem result_fields_at_limit (platform_title target_keywords r : pystr) :
  (List.length r = 1024 ->
   List.length (social_post_fields platform_title r) = 1 /\
   List.length (fst (seo_audit_reply target_keywords r)) = 1) /\
  (List.length r = 1025 ->
   2 <= List.length (social_post_fields platform_title r) /\
   2 <= List.length (fst (seo_audit_reply target_keywords r))) /\
  (List.length r <= 1000 ->
   List.length (content_preview_fields r) = 1 /\
   List.length (campaign_preview_fields r) = 1) /\
  (1000 < List.length r ->
   2 <= List.length (content_preview_fields r) /\
   2 <= List.length (campaign_preview_fields r)) /\
  List.length (image_concept_fields r) = 1.
Proof.
  unfold social_post_fields, content_preview_fields, campaign_preview_fields.
  split; [|split; [|split; [|split]]].
  - intros H; rewrite H; split; [reflexivity|].
    unfold seo_audit_reply; rewrite H; reflexivity.
  - intros H; split.
    + rewrite H; simpl; lia.
    + rewrite seo_audit_reply_long by lia.
      pose proof (chunk_count_bounds (List.length r)) as (_ & _ & H3).
      rewrite seo_chunk_count in *.
      destruct (Nat.ltb 6 _); rewrite ?length_app, seo_shown_length,
        seo_chunk_count; lia.
  - intros H.
    rewrite (proj2 (Nat.ltb_ge 1000 (List.length r)) H); split; reflexivity.
  - intros H.
    rewrite (proj2 (Nat.ltb_lt 1000 (List.length r)) H).
    destruct (Nat.ltb 2000 (List.length r)); simpl; lia.
  - reflexivity.
Qed.

(** C4 counterexample: a result of exactly 1024 characters is split over
    two preview fields by [cmd_content_enhanced]. *)
Lemma content_preview_1024 :
  List.length (repeat 97%Z 1024) = 1024 /\
  List.length (content_preview_fields (repeat 97%Z 1024)) = 2.
Proof. split; vm_compute; reflexivity. Qed.

Lemma preview_split (k : nat) (r : pystr) (n1 n2 n3 n4 note : pystr) :
  let fs :=
    if Nat.ltb k (List.length r) then
      {| field_name := n1; field_value := py_slice r 0 k |} ::
      (if Nat.ltb (k + k) (List.length r) then
         [ {| field_name := n2; field_value := py_slice r k (k + k) |};
           {| field_name := n3; field_value := note |} ]
       else [ {| field_name := n2; field_value := py_slice_from r k |} ])
    else [ {| field_name := n4; field_value := r |} ] in
  List.length fs <= 3 /\
  concat (map field_value (firstn 2 fs)) = firstn (k + k) r /\
  (skipn 2 fs = [] \/ skipn 2 fs = [ {| field_name := n3; field_value := note |} ]).
Proof.
  cbv zeta; unfold py_slice, py_slice_from; rewrite Nat.sub_0_r, skipn_O.
  destruct (Nat.ltb_spec k (List.length r)) as [H1|H1].
  - destruct (Nat.ltb_spec (k + k) (List.length r)) as [H2|H2];
      cbn [List.length firstn skipn map concat field_value];
      (split; [lia|split; [|auto]]); rewrite ?app_nil_r.
    + rewrite Nat.add_sub, firstn_plus; reflexivity.
    + rewrite firstn_skipn, firstn_all2 by lia; reflexivity.
  - cbn [List.length firstn skipn map concat field_value].
    split; [lia|split; [|auto]].
    rewrite app_nil_r, firstn_all2 by lia; reflexivity.
Qed.

Lemma social_split (k : nat) (r : pystr) (n1 n2 n3 : pystr) :
  let fs :=
    if Nat.ltb k (List.length r) then
      {| field_name := n1; field_value := py_slice r 0 k |} ::
      (if Nat.ltb (k + k) (List.length r) then
         [ {| field_name := n2; field_value := py_slice r k (k + k) |} ]
       else [ {| field_name := n2; field_value := py_slice_from r k |} ])
    else [ {| field_name := n3; field_value := r |} ] in
  List.length fs <= 2 /\ concat (map field_value fs) = firstn (k + k) r.
Proof.
  cbv zeta; unfold py_slice, py_slice_from; rewrite Nat.sub_0_r, skipn_O.
  destruct (Nat.ltb_spec k (List.length r)) as [H1|H1].
  - destruct (Nat.ltb_spec (k + k) (List.length r)) as [H2|H2];
      cbn [List.length map concat field_value];
      (split; [lia|]); rewrite app_nil_r.
    + rewrite Nat.add_sub, firstn_plus; reflexivity.
    + rewrite firstn_skipn, firstn_all2 by lia; reflexivity.
  - cbn [List.length map concat field_value]; split; [lia|].
    rewrite app_nil_r, firstn_all2 by lia; reflexivity.
Qed.

(** C7 (corrected).  [cmd_social_enhanced] sends at most two slices (the
    first 2048 characters) and drops the rest; [cmd_content_enhanced] and
    [cmd_campaign_enhanced] send at most two preview slices (the first 2000
    characters) and a fixed note, and always attach a file holding the
    whole result; [cmd_seo_audit] sends up to six 1024-character slices
    (the first 6144 characters), then at most a fixed note, and attaches a
    file holding the whole result exactly when it is longer than 6144
    characters.  No remainder is sent as further fields. *)
Theorem result_fields_remainder (platform_title target_keywords r : pystr)
    (content_type_title topic seo_section campaign_type goal duration : pystr) :
  (List.length (social_post_fields platform_title r) <= 2 /\
   concat (map field_value (social_post_fields platform_title r)) = firstn 2048 r) /\
  (List.length (content_preview_fields r) <= 3 /\
   concat (map field_value (firstn 2 (content_preview_fields r))) = firstn 2000 r /\
   (skipn 2 (content_preview_fields r) = [] \/
    skipn 2 (content_preview_fields r) =
      [ {| field_name := py "📄 Complete Content";
           field_value := py "See attached file for full article with SEO analysis" |} ]) /\
   exists pre, content_file content_type_title topic seo_section r = pre ++ r) /\
  (List.length (campaign_preview_fields r) <= 3 /\
   concat (map field_value (firstn 2 (campaign_preview_fields r))) = firstn 2000 r /\
   (skipn 2 (campaign_preview_fields r) = [] \/
    skipn 2 (campaign_preview_fields r) =
      [ {| field_name := py "📄 Complete Strategy";
           field_value := py "See attached file for full campaign strategy and asset checklist" |} ]) /\
   exists pre post, campaign_file campaign_type goal duration r = pre ++ r ++ post) /\
  (List.length (fst (seo_audit_reply target_keywords r)) <= 7 /\
   concat (map field_value (firstn 6 (fst (seo_audit_reply target_keywords r)))) =
     firstn (6 * 1024) r /\
   (skipn 6 (fst (seo_audit_reply target_keywords r)) = [] \/
    skipn 6 (fst (seo_audit_reply target_keywords r)) = [seo_note]) /\
   (6 * 1024 < List.length r ->
      exists pre, snd (seo_audit_reply target_keywords r) = Some (pre ++ r)) /\
   (List.length r <= 6 * 1024 -> snd (seo_audit_reply target_keywords r) = None)).
Proof.
  split; [|split; [|split]].
  - exact (social_split 1024 r (py "📝 " ++ platform_title ++ py " Post (Part 1)")
             (py "📝 " ++ platform_title ++ py " Post (Part 2)")
             (py "📝 " ++ platform_title ++ py " Post")).
  - destruct (preview_split 1000 r (py "📋 Content Preview (Part 1)")
                (py "📋 Content Preview (Part 2)") (py "📄 Complete Content")
                (py "📋 Complete Content")
                (py "See attached file for full article with SEO analysis"))
      as (H1 & H2 & H3).
    split; [exact H1|split; [exact H2|split; [exact H3|]]].
    unfold content_file; rewrite !app_assoc; eexists; reflexivity.
  - destruct (preview_split 1000 r (py "📋 Campaign Preview (Part 1)")
                (py "📋 Campaign Preview (Part 2)") (py "📄 Complete Strategy")
                (py "📋 Complete Campaign Strategy")
                (py "See attached file for full campaign strategy and asset checklist"))
      as (H1 & H2 & H3).
    split; [exact H1|split; [exact H2|split; [exact H3|]]].
    unfold campaign_file; rewrite !app_assoc; do 2 eexists.
    rewrite <- app_assoc; reflexivity.
  - pose proof (chunk_count_bounds (List.length r)) as (B1 & B2 & _).
    pose proof (seo_audit_reply_file target_keywords r) as HF.
    destruct (Nat.ltb_spec 1024 (List.length r)) as [H|H].
    + rewrite seo_audit_reply_long by exact H.
      pose proof (seo_shown_length r) as HL.
      pose proof (seo_shown_values r) as HV.
      pose proof (seo_shown_concat r) as HC.
      rewrite seo_chunk_count in HL, HF |- *.
      cbn [andb] in HF.
      destruct (Nat.ltb_spec 6 ((List.length r + 1023) / 1024)) as [H6|H6].
      * rewrite Nat.min_l in HL by lia.
        rewrite length_app, firstn_app, skipn_app, HL, Nat.sub_diag.
        rewrite (firstn_all2 (n := 6) (seo_shown_fields r)), (skipn_all2 (n := 6) (seo_shown_fields r))
          by lia.
        cbn [List.length firstn skipn app].
        rewrite app_nil_r, HV, HC.
        split; [lia|split; [reflexivity|split; [right; reflexivity|split]]].
        -- intros _; rewrite HF, !app_assoc; eexists; reflexivity.
        -- intros; lia.
      * rewrite Nat.min_r in HL by lia.
        rewrite (firstn_all2 (n := 6) (seo_shown_fields r)), (skipn_all2 (n := 6) (seo_shown_fields r))
          by lia.
        rewrite HV, HC.
        split; [lia|split; [reflexivity|split; [left; reflexivity|split]]].
        -- intros; lia.
        -- intros _; exact HF.
    + unfold seo_audit_reply.
      rewrite (proj2 (Nat.ltb_ge _ _) H).
      cbn [fst snd List.length map concat firstn skipn field_value].
      split; [lia|split; [|split; [left; reflexivity|split; [lia|reflexivity]]]].
      rewrite app_nil_r, firstn_all2 by lia; reflexivity.
Qed.

(** C7 counterexample: an audit of 6144 characters is sent as six slice
    fields, more than two or three. *)
Lemma seo_audit_six_slices :
  List.length (fst (seo_audit_reply [] (repeat 97%Z (6 * 1024)))) = 6 /\
  snd (seo_audit_reply [] (repeat 97%Z (6 * 1024))) = None.
Proof. split; vm_compute; reflexivity. Qed.

(** ** [parse_color] lemmas *)












(** * Further properties of the code *)

(** ** The provider chain, step by step *)

Lemma fallback_chain_trace (cs : dict client) (ml : option Z)
    (chain : list (pystr * request * pystr)) (log0 : list pystr) :
  exists failed rest log,
    registered cs chain = failed ++ rest /\
    Forall2 (fun '(req, err, c) line => exists e, c req = Raise e /\ line = err ++ e)
      failed log /\
    snd (fallback_chain cs ml chain log0) = log0 ++ log /\
    ((rest = [] /\ fst (fallback_chain cs ml chain log0) = sentinel_no_service) \/
     (exists req err c r rest', rest = (req, err, c) :: rest' /\ c req = Ok r /\
        fst (fallback_chain cs ml chain log0) = clip ml r)).
Proof.
  revert log0; induction chain as [|[[key req] err] chain IH]; intros log0.
  - exists [], [], []; simpl; rewrite app_nil_r; intuition.
  - simpl; destruct (dict_get key cs) as [c|] eqn:Hc.
    + destruct (c req) as [r|e] eqn:Hr.
      * exists [], ((req, err, c) :: registered cs chain), []; simpl.
        rewrite app_nil_r; split; [reflexivity|split; [constructor|split; [reflexivity|]]].
        right; exists req, err, c, r, (registered cs chain); auto.
      * destruct (IH (log0 ++ [err ++ e])) as (failed & rest & log & H1 & H2 & H3 & H4).
        exists ((req, err, c) :: failed), rest, ((err ++ e) :: log).
        rewrite H1, H3, <- app_assoc; simpl.
        split; [reflexivity|split; [constructor; eauto|split; [reflexivity|exact H4]]].
    + exact (IH log0).
Qed.

Lemma nodupb_NoDup (l : list pystr) : nodupb l = true -> NoDup l.
Proof.
  induction l as [|x l IH]; simpl; intros H; [constructor|].
  apply andb_true_iff in H as [H1 H2].
  constructor; [|exact (IH H2)].
  intros Hin; apply negb_true_iff in H1.
  assert (existsb (pystr_eqb x) l = true)
    by (apply existsb_exists; exists x; split; [exact Hin|apply pystr_eqb_refl]).
  congruence.
Qed.

Lemma dict_set_keys {V} (k : pystr) (v : V) (d : dict V) :
  map fst (dict_set k v d) =
  if existsb (pystr_eqb k) (map fst d) then map fst d else map fst d ++ [k].
Proof.
  induction d as [|[k0 v0] d IH]; simpl; [reflexivity|].
  destruct (pystr_eqb k k0) eqn:E; simpl.
  - apply pystr_eqb_eq in E; subst; reflexivity.
  - rewrite IH; destruct (existsb _ _); reflexivity.
Qed.

(** ** Extra theorems *)

(** What [_get_ai_response] does, step by step: the registered providers,
    in chain order, split into those tried and failed and the rest; each
    failed call logged one line, its error prefix followed by the
    exception message, in that order; and the answer is the sentinel when
    every registered provider failed, or else the clipped text of the first
    registered provider that did not raise. *)
Theorem get_ai_response_trace (b : bot) (prompt ctx : pystr) (uk : bool)
    (ml : option Z) :
  exists failed rest,
    registered (ai_clients b) (provider_chain b prompt ctx) = failed ++ rest /\
    Forall2 (fun '(req, err, c) line => exists e, c req = Raise e /\ line = err ++ e)
      failed (snd (get_ai_response b prompt ctx uk ml)) /\
    ((rest = [] /\ fst (get_ai_response b prompt ctx uk ml) = sentinel_no_service) \/
     (exists req err c r rest', rest = (req, err, c) :: rest' /\ c req = Ok r /\
        fst (get_ai_response b prompt ctx uk ml) = clip ml r)).
Proof.
  rewrite get_ai_response_as_chain.
  destruct (fallback_chain_trace (ai_clients b) ml (provider_chain b prompt ctx) [])
    as (failed & rest & log & H1 & H2 & H3 & H4).
  exists failed, rest; rewrite H3; simpl; auto.
Qed.

(** [_initialize_ai_clients] registers, in this order, at most one of
    ["nano_banana"] and ["gemini"] (never both), then possibly
    ["openai"]. *)
Theorem initialize_ai_clients_shape getenv genai oi mk_nano mk_gemini mk_openai :
  In (map fst (initialize_ai_clients getenv genai oi mk_nano mk_gemini mk_openai))
    [[]; [py "nano_banana"]; [py "gemini"]; [py "openai"];
     [py "nano_banana"; py "openai"]; [py "gemini"; py "openai"]].
Proof.
  unfold initialize_ai_clients.
  destruct (truthy_str (getenv (py "GEMINI_API_KEY"))) as [gk|], genai;
    try destruct (mk_nano gk); try destruct (mk_gemini gk);
    destruct (truthy_str (getenv (py "OPENAI_API_KEY"))) as [ok|], oi;
    try destruct (mk_openai ok); vm_compute;
    repeat (first [left; reflexivity | right]).
Qed.

(** Which clients [_initialize_ai_clients] registers: ["nano_banana"]
    exactly when [GEMINI_API_KEY] is set and non-empty, [google.genai] was
    imported and [genai.Client] succeeded; ["gemini"] likewise with the
    legacy SDK; ["openai"] exactly when [OPENAI_API_KEY] is set and
    non-empty, [openai] was imported and [openai.OpenAI] succeeded,
    whatever happened to Gemini. *)
Theorem initialize_ai_clients_entries getenv genai oi mk_nano mk_gemini mk_openai
    (c : client) :
  let cs := initialize_ai_clients getenv genai oi mk_nano mk_gemini mk_openai in
  (dict_get (py "nano_banana") cs = Some c <->
   exists key, truthy_str (getenv (py "GEMINI_API_KEY")) = Some key /\
               genai = GenaiNew /\ mk_nano key = Built c) /\
  (dict_get (py "gemini") cs = Some c <->
   exists key, truthy_str (getenv (py "GEMINI_API_KEY")) = Some key /\
               genai = GenaiLegacy /\ mk_gemini key = Built c) /\
  (dict_get (py "openai") cs = Some c <->
   exists key, truthy_str (getenv (py "OPENAI_API_KEY")) = Some key /\
               oi = true /\ mk_openai key = Built c).
Proof.
  cbv zeta; unfold initialize_ai_clients.
  destruct (truthy_str (getenv (py "GEMINI_API_KEY"))) as [gk|] eqn:Eg, genai;
    try destruct (mk_nano gk) as [cn|] eqn:En;
    try destruct (mk_gemini gk) as [cg|] eqn:Egm;
    destruct (truthy_str (getenv (py "OPENAI_API_KEY"))) as [ok|] eqn:Eo, oi;
    try destruct (mk_openai ok) as [co|] eqn:Eop;
    vm_compute;
    (split; [|split]); split;
    (intros H; first [ injection H as <- | discriminate H
                     | destruct H as (? & ? & ? & ?); try discriminate ]);
    try (eexists; split; [reflexivity|split; [reflexivity|]]);
    congruence.
Qed.

(** With neither [GEMINI_API_KEY] nor [OPENAI_API_KEY] set to a non-empty
    value, the registry [_initialize_ai_clients] builds is empty, and every
    [_get_ai_response] call of a bot holding it answers the "no service"
    sentinel and logs nothing. *)
Theorem no_api_keys_no_service getenv genai oi mk_nano mk_gemini mk_openai
    (dna : pystr) (kb : option knowledge_base_t) (prompt ctx : pystr)
    (uk : bool) (ml : option Z) :
  truthy_str (getenv (py "GEMINI_API_KEY")) = None ->
  truthy_str (getenv (py "OPENAI_API_KEY")) = None ->
  initialize_ai_clients getenv genai oi mk_nano mk_gemini mk_openai = [] /\
  get_ai_response
    {| brand_dna := dna;
       ai_clients := initialize_ai_clients getenv genai oi mk_nano mk_gemini mk_openai;
       knowledge_base := kb |} prompt ctx uk ml = (sentinel_no_service, []).
Proof.
  intros Hg Ho.
  assert (He : initialize_ai_clients getenv genai oi mk_nano mk_gemini mk_openai = []).
  { unfold initialize_ai_clients; rewrite Hg, Ho; reflexivity. }
  split; [exact He|].
  rewrite He; reflexivity.
Qed.

Lemma no_api_keys_no_service_witness :
  initialize_ai_clients no_keys_env GenaiNew true
    (fun _ => Built (const_client (py "nano")))
    (fun _ => Built (const_client (py "gemini")))
    (fun _ => Built (const_client (py "openai"))) = [] /\
  get_ai_response
    {| brand_dna := brand_dna_text;
       ai_clients := initialize_ai_clients no_keys_env GenaiNew true
                       (fun _ => Built (const_client (py "nano")))
                       (fun _ => Built (const_client (py "gemini")))
                       (fun _ => Built (const_client (py "openai")));
       knowledge_base := None |} (py "Write a post") (py "Writer") true None
  = (sentinel_no_service, []).
Proof.
  apply no_api_keys_no_service; reflexivity.
Defined.

(** [_add_to_knowledge_base(t, c)] returns [True]; afterwards the
    knowledge base exists, [manual_entries[t]] is
    [{"content": c, "type": "manual"}], every other title keeps what it
    had, [scraped_content] is unchanged (or the empty dict just created),
    and the brand DNA and the AI clients are untouched. *)
Theorem add_to_knowledge_base_lookup (b : bot) (t c : pystr) :
  fst (add_to_knowledge_base b t c) = true /\
  brand_dna (snd (add_to_knowledge_base b t c)) = brand_dna b /\
  ai_clients (snd (add_to_knowledge_base b t c)) = ai_clients b /\
  exists kb',
    knowledge_base (snd (add_to_knowledge_base b t c)) = Some kb' /\
    dict_get t (manual_entries kb') =
      Some {| entry_content := c; entry_type := py "manual" |} /\
    (forall t', t' <> t ->
       dict_get t' (manual_entries kb') =
       match knowledge_base b with
       | Some kb => dict_get t' (manual_entries kb)
       | None => None
       end) /\
    scraped_content kb' =
      match knowledge_base b with
      | Some kb => scraped_content kb
      | None => []
      end.
Proof.
  split; [reflexivity|split; [reflexivity|split; [reflexivity|]]].
  eexists; split; [reflexivity|]; cbn [manual_entries scraped_content].
  split; [|split].
  - rewrite dict_get_set, pystr_eqb_refl; reflexivity.
  - intros t' Ht; rewrite dict_get_set.
    destruct (pystr_eqb t' t) eqn:E; [apply pystr_eqb_eq in E; contradiction|].
    destruct (knowledge_base b); reflexivity.
  - destruct (knowledge_base b); reflexivity.
Qed.

(** [_add_to_knowledge_base(t, c)] keeps the titles in insertion order: an
    existing title stays where it was and the list of titles is unchanged;
    a new title is appended at the end. *)
Theorem add_to_knowledge_base_titles (b : bot) (t c : pystr) :
  kb_titles (snd (add_to_knowledge_base b t c)) =
  if existsb (pystr_eqb t) (kb_titles b) then kb_titles b
  else kb_titles b ++ [t].
Proof.
  unfold kb_titles; cbn [add_to_knowledge_base snd knowledge_base manual_entries].
  rewrite dict_set_keys.
  destruct (knowledge_base b); reflexivity.
Qed.

(** ** [_extract_seo_keywords] *)

Lemma in_firstn_in {A} (n : nat) (l : list A) (x : A) :
  In x (firstn n l) -> In x l.
Proof.
  intros H; rewrite <- (firstn_skipn n l); apply in_or_app; left; exact H.
Qed.

Lemma in_firstn_S {A} (n : nat) (l : list A) (x : A) :
  In x (firstn n l) -> In x (firstn (S n) l).
Proof.
  intros H; rewrite <- Nat.add_1_r, firstn_plus; apply in_or_app; left; exact H.
Qed.

Lemma in_firstn_filter {A} (f : A -> bool) (n : nat) (l : list A) (x : A) :
  In x (firstn n l) -> f x = true -> In x (firstn n (filter f l)).
Proof.
  revert n; induction l as [|y l IH]; intros n Hin Hf; [destruct n; contradiction|].
  destruct n as [|n]; [contradiction|].
  destruct Hin as [<-|Hin]; simpl.
  - rewrite Hf; left; reflexivity.
  - destruct (f y); [right; apply IH; assumption|].
    apply in_firstn_S, IH; assumption.
Qed.

Lemma NoDup_firstn' {A} (n : nat) (l : list A) : NoDup l -> NoDup (firstn n l).
Proof.
  intros H; rewrite <- (firstn_skipn n l) in H.
  exact (NoDup_app_remove_r _ _ H).
Qed.

Lemma industry_keywords_NoDup : NoDup industry_keywords.
Proof. apply nodupb_NoDup; vm_compute; reflexivity. Qed.

(** [_extract_seo_keywords] returns at most ten keywords, each one from its
    fixed list of fourteen industry keywords, none twice. *)
Theorem extract_seo_keywords_bounded (lower : pystr -> pystr)
    (is_word : Z -> bool) (content : pystr) :
  List.length (extract_seo_keywords lower is_word content) <= 10 /\
  NoDup (extract_seo_keywords lower is_word content) /\
  incl (extract_seo_keywords lower is_word content) industry_keywords.
Proof.
  unfold extract_seo_keywords; cbv zeta.
  split; [|split].
  - apply firstn_le_length.
  - apply NoDup_firstn', NoDup_filter, industry_keywords_NoDup.
  - intros x Hx; apply in_firstn_in in Hx.
    apply filter_In in Hx; exact (proj1 Hx).
Qed.

(** For each of the first ten industry keywords, [_extract_seo_keywords]
    reports it exactly when it occurs in [content.lower()], or when the
    keyword with its spaces removed occurs in the space-joined words of
    three or more ASCII letters found in [content.lower()]; the cap of ten
    never drops one of them. *)
Theorem extract_seo_keywords_top_ten (lower : pystr -> pystr)
    (is_word : Z -> bool) (content kw : pystr) :
  In kw (firstn 10 industry_keywords) ->
  (In kw (extract_seo_keywords lower is_word content) <->
   py_contains (py_join (py " ") (find_words is_word (lower content)))
     (drop_spaces kw) = true \/
   py_contains (lower content) kw = true).
Proof.
  intros Hk; unfold extract_seo_keywords; cbv zeta.
  rewrite <- orb_true_iff; split.
  - intros H; apply in_firstn_in, filter_In in H; exact (proj2 H).
  - intros H; apply in_firstn_filter; assumption.
Qed.

Lemma extract_seo_keywords_top_ten_witness :
  In (py "remote work")
     (extract_seo_keywords ascii_lower ascii_word (py "Hire a RemoteWork crew")) <->
  py_contains (py_join (py " ")
                 (find_words ascii_word (ascii_lower (py "Hire a RemoteWork crew"))))
     (drop_spaces (py "remote work")) = true \/
  py_contains (ascii_lower (py "Hire a RemoteWork crew")) (py "remote work") = true.
Proof.
  apply extract_seo_keywords_top_ten.
  vm_compute; right; left; reflexivity.
Defined.

Lemma try_lengths_ok (ok : nat -> bool) (m n : nat) :
  try_lengths ok m = Some n -> ok n = true /\ 3 <= n <= m.
Proof.
  induction m as [|m IH]; cbn [try_lengths]; [discriminate|].
  destruct (Nat.leb 3 (S m) && ok (S m)) eqn:E.
  - intros [= <-]; apply andb_true_iff in E as [E1 E2].
    apply Nat.leb_le in E1; auto.
  - intros H; destruct (IH H) as [H1 H2]; split; [exact H1|lia].
Qed.

Lemma try_lengths_top (ok : nat -> bool) (n : nat) :
  3 <= n -> ok n = true -> try_lengths ok n = Some n.
Proof.
  intros Hn Hok; destruct n as [|m]; [lia|].
  cbn [try_lengths]; rewrite Hok, (proj2 (Nat.leb_le 3 (S m)) Hn); reflexivity.
Qed.

Lemma letter_run_prefix (l : pystr) (n : nat) :
  n <= letter_run l ->
  List.length (firstn n l) = n /\ forallb is_ascii_letter (firstn n l) = true.
Proof.
  revert n; induction l as [|c l IH]; intros n H; simpl in H.
  - assert (n = 0) by lia; subst; auto.
  - destruct n as [|n]; [auto|].
    destruct (is_ascii_letter c) eqn:Ec; [|lia].
    destruct (IH n ltac:(lia)) as [H1 H2].
    simpl; rewrite H1, Ec, H2; auto.
Qed.

Lemma letter_run_nth (l : pystr) (j : nat) :
  j < letter_run l -> exists c, nth_error l j = Some c /\ is_ascii_letter c = true.
Proof.
  revert j; induction l as [|c l IH]; intros j H; simpl in H; [lia|].
  destruct (is_ascii_letter c) eqn:Ec; [|lia].
  destruct j as [|j]; [exists c; split; [reflexivity|exact Ec]|].
  simpl; apply IH; lia.
Qed.

Lemma letter_run_app (w l : pystr) :
  forallb is_ascii_letter w = true ->
  letter_run (w ++ l) = List.length w + letter_run l.
Proof.
  induction w as [|c w IH]; simpl; [reflexivity|].
  intros H; apply andb_true_iff in H as [H1 H2].
  rewrite H1, IH by exact H2; reflexivity.
Qed.

Lemma letter_run_all (w : pystr) :
  forallb is_ascii_letter w = true -> letter_run w = List.length w.
Proof.
  intros H; rewrite <- (app_nil_r w) at 1; rewrite letter_run_app by exact H.
  simpl; lia.
Qed.

Lemma firstn_S_nth (l : pystr) (j : nat) (c : Z) :
  nth_error l j = Some c -> firstn (S j) l = firstn j l ++ [c].
Proof.
  revert l; induction j as [|j IH]; intros [|x l] H; simpl in *; try discriminate.
  - injection H as ->; reflexivity.
  - rewrite (IH l H); reflexivity.
Qed.

Lemma nth_error_mid (pre l : pystr) (j k : nat) :
  k = List.length pre + j -> nth_error (pre ++ l) k = nth_error l j.
Proof. intros ->; induction pre as [|x pre IH]; simpl; auto. Qed.

Lemma skipn_app_length (pre l : pystr) : skipn (List.length pre) (pre ++ l) = l.
Proof. induction pre as [|x pre IH]; simpl; auto. Qed.

Lemma at_boundary_start (is_word : Z -> bool) (s : pystr) (k : nat) (c : Z) :
  (k = 0 \/ exists j c', k = S j /\ nth_error s j = Some c' /\ is_word c' = false) ->
  nth_error s k = Some c -> is_word c = true ->
  at_boundary is_word s k = true.
Proof.
  intros Hk Hc Hw.
  destruct Hk as [->|(j & c' & -> & Hj & Hw')];
    cbv beta iota zeta delta [at_boundary]; rewrite Hc, Hw; [reflexivity|].
  rewrite Hj, Hw'; reflexivity.
Qed.

Lemma at_boundary_end (is_word : Z -> bool) (s : pystr) (j : nat) (c : Z) :
  nth_error s j = Some c -> is_word c = true ->
  (nth_error s (S j) = None \/
   exists c', nth_error s (S j) = Some c' /\ is_word c' = false) ->
  at_boundary is_word s (S j) = true.
Proof.
  intros Hc Hw Hk; cbv beta iota zeta delta [at_boundary]; rewrite Hc, Hw.
  destruct Hk as [->|(c' & -> & ->)]; reflexivity.
Qed.

Lemma word_match_at_some (is_word : Z -> bool) (s : pystr) (i m : nat) :
  word_match_at is_word s i = Some m ->
  at_boundary is_word s i = true /\ at_boundary is_word s (i + m) = true /\
  3 <= m <= letter_run (skipn i s).
Proof.
  unfold word_match_at.
  destruct (at_boundary is_word s i) eqn:Hb; [|discriminate].
  intros H; apply try_lengths_ok in H as [H1 H2]; auto.
Qed.

Lemma findall_from_sound (is_word : Z -> bool) (s w : pystr) (i fuel : nat) :
  In w (findall_from is_word s i fuel) ->
  exists i' m, word_match_at is_word s i' = Some m /\ w = py_slice s i' (i' + m).
Proof.
  revert i; induction fuel as [|fuel IH]; intros i; cbn [findall_from]; [intros []|].
  destruct (word_match_at is_word s i) as [n|] eqn:Hm.
  - intros [<-|H]; [eauto|apply (IH _ H)].
  - apply IH.
Qed.

Lemma word_match_occurrence (is_word : Z -> bool) (s : pystr) (i m : nat) :
  (forall c, is_ascii_letter c = true -> is_word c = true) ->
  word_match_at is_word s i = Some m ->
  exists pre post, s = pre ++ py_slice s i (i + m) ++ post /\
    3 <= List.length (py_slice s i (i + m)) /\
    forallb is_ascii_letter (py_slice s i (i + m)) = true /\
    (pre = [] \/ exists c pre', pre = pre' ++ [c] /\ is_word c = false) /\
    (post = [] \/ exists c post', post = c :: post' /\ is_word c = false).
Proof.
  intros Hw Hm.
  destruct (word_match_at_some _ _ _ _ Hm) as (Hb1 & Hb2 & Hlo & Hhi).
  unfold py_slice; replace (i + m - i) with m by lia.
  destruct (letter_run_prefix (skipn i s) m Hhi) as [Hlen Hlet].
  destruct (letter_run_nth (skipn i s) 0 ltac:(lia)) as (c0 & Hc0 & Lc0).
  destruct (letter_run_nth (skipn i s) (m - 1) ltac:(lia)) as (c1 & Hc1 & Lc1).
  rewrite nth_error_skipn in Hc0, Hc1.
  exists (firstn i s), (skipn m (skipn i s)).
  split; [rewrite !firstn_skipn; reflexivity|].
  split; [lia|]. split; [exact Hlet|]. split.
  - destruct i as [|j]; [left; reflexivity|right].
    rewrite Nat.add_0_r in Hc0.
    cbv beta iota zeta delta [at_boundary] in Hb1.
    rewrite Hc0, (Hw _ Lc0) in Hb1.
    destruct (nth_error s j) as [c|] eqn:Hj.
    + exists c, (firstn j s); split; [apply firstn_S_nth; exact Hj|].
      destruct (is_word c); simpl in Hb1; [discriminate|reflexivity].
    + exfalso; apply nth_error_None in Hj.
      assert (S j < List.length s) by (apply nth_error_Some; congruence).
      lia.
  - destruct (skipn m (skipn i s)) as [|c post'] eqn:Hp; [left; reflexivity|right].
    exists c, post'; split; [reflexivity|].
    pose proof (nth_error_skipn m (skipn i s) 0) as Hn.
    rewrite Hp, nth_error_skipn, Nat.add_0_r in Hn; simpl in Hn.
    replace (i + m) with (S (i + (m - 1))) in Hb2, Hn by lia.
    cbv beta iota zeta delta [at_boundary] in Hb2.
    rewrite Hc1, <- Hn, (Hw _ Lc1) in Hb2.
    destruct (is_word c); simpl in Hb2; [discriminate|reflexivity].
Qed.

Lemma word_match_whole (is_word : Z -> bool) (pre w post : pystr) :
  (forall c, is_ascii_letter c = true -> is_word c = true) ->
  3 <= List.length w -> forallb is_ascii_letter w = true ->
  (pre = [] \/ exists c pre', pre = pre' ++ [c] /\ is_word c = false) ->
  (post = [] \/ exists c post', post = c :: post' /\ is_word c = false) ->
  word_match_at is_word (pre ++ w ++ post) (List.length pre) = Some (List.length w).
Proof.
  intros Hw Hn Hl Hpre Hpost.
  pose proof (letter_run_all w Hl) as Hr.
  destruct (letter_run_nth w 0 ltac:(lia)) as (a & Ha & La).
  destruct (letter_run_nth w (List.length w - 1) ltac:(lia)) as (z & Hz & Lz).
  assert (B1 : at_boundary is_word (pre ++ w ++ post) (List.length pre) = true).
  { apply (at_boundary_start _ _ _ a).
    - destruct Hpre as [->|(c & pre' & -> & Hc)]; [left; reflexivity|right].
      exists (List.length pre'), c.
      split; [rewrite length_app; simpl; lia|split; [|exact Hc]].
      rewrite <- app_assoc, (nth_error_mid pre' _ 0) by lia; reflexivity.
    - rewrite (nth_error_mid pre _ 0) by lia.
      rewrite nth_error_app1 by lia; exact Ha.
    - apply Hw, La. }
  assert (B2 : at_boundary is_word (pre ++ w ++ post)
                 (List.length pre + List.length w) = true).
  { replace (List.length pre + List.length w)
      with (S (List.length pre + (List.length w - 1))) by lia.
    apply (at_boundary_end _ _ _ z).
    - rewrite (nth_error_mid pre _ (List.length w - 1)) by lia.
      rewrite nth_error_app1 by lia; exact Hz.
    - apply Hw, Lz.
    - replace (S (List.length pre + (List.length w - 1)))
        with (List.length pre + List.length w) by lia.
      rewrite (nth_error_mid pre _ (List.length w)) by lia.
      rewrite (nth_error_mid w _ 0) by lia.
      destruct Hpost as [->|(c & post' & -> & Hc)];
        [left; reflexivity|right; exists c; auto]. }
  unfold word_match_at; rewrite B1.
  rewrite skipn_app_length, letter_run_app by exact Hl.
  replace (letter_run post) with 0.
  - rewrite Nat.add_0_r; apply try_lengths_top; [exact Hn|exact B2].
  - destruct Hpost as [->|(c & post' & -> & Hc)]; [reflexivity|].
    simpl; destruct (is_ascii_letter c) eqn:Lc; [|reflexivity].
    rewrite (Hw _ Lc) in Hc; discriminate.
Qed.

Lemma word_match_before (is_word : Z -> bool) (pre w post : pystr) (i m : nat) :
  (forall c, is_ascii_letter c = true -> is_word c = true) ->
  (pre = [] \/ exists c pre', pre = pre' ++ [c] /\ is_word c = false) ->
  i < List.length pre -> word_match_at is_word (pre ++ w ++ post) i = Some m ->
  i + m <= List.length pre.
Proof.
  intros Hw Hpre Hi Hm.
  destruct (word_match_at_some _ _ _ _ Hm) as (_ & _ & Hlo & Hhi).
  destruct Hpre as [->|(c & pre' & -> & Hc)]; [simpl in Hi; lia|].
  rewrite length_app in Hi |- *; cbn [List.length] in Hi |- *.
  destruct (Nat.le_gt_cases (i + m) (List.length pre' + 1)) as [H|H]; [exact H|exfalso].
  destruct (letter_run_nth (skipn i ((pre' ++ [c]) ++ w ++ post))
              (List.length pre' - i) ltac:(lia)) as (d & Hd & Ld).
  rewrite nth_error_skipn, <- app_assoc, (nth_error_mid pre' _ 0) in Hd by lia.
  simpl in Hd; injection Hd as Hd; subst.
  rewrite (Hw _ Ld) in Hc; discriminate.
Qed.

Lemma findall_from_reaches (is_word : Z -> bool) (s : pystr) (k n : nat) :
  word_match_at is_word s k = Some n ->
  (forall i m, i < k -> word_match_at is_word s i = Some m -> i + m <= k) ->
  forall fuel i, i <= k -> k - i < fuel ->
  In (py_slice s k (k + n)) (findall_from is_word s i fuel).
Proof.
  intros Hk Hb fuel; induction fuel as [|fuel IH]; intros i Hi Hf; [lia|].
  cbn [findall_from].
  destruct (Nat.eq_dec i k) as [->|Hne].
  - rewrite Hk; left; reflexivity.
  - destruct (word_match_at is_word s i) as [m|] eqn:Hm.
    + right. pose proof (Hb i m ltac:(lia) Hm).
      destruct (word_match_at_some _ _ _ _ Hm) as (_ & _ & Hlo & _).
      apply IH; lia.
    + apply IH; lia.
Qed.

(** [re.findall(r'\b[a-zA-Z]{3,}\b', s)] in [_extract_seo_keywords]
    returns exactly the whole words of [s] made of three or more ASCII
    letters: [w] is found if and only if [s] is [pre ++ w ++ post] where
    [w] has three or more ASCII letters, [pre] is empty or ends with a
    non-word character, and [post] is empty or starts with one.  This holds
    for any meaning of [\w] that counts the ASCII letters as word
    characters. *)
Theorem find_words_exact (is_word : Z -> bool) (s w : pystr) :
  (forall c, is_ascii_letter c = true -> is_word c = true) ->
  In w (find_words is_word s) <->
  exists pre post, s = pre ++ w ++ post /\ 3 <= List.length w /\
    forallb is_ascii_letter w = true /\
    (pre = [] \/ exists c pre', pre = pre' ++ [c] /\ is_word c = false) /\
    (post = [] \/ exists c post', post = c :: post' /\ is_word c = false).
Proof.
  intros Hw; split.
  - intros H; apply findall_from_sound in H as (i & m & Hm & ->).
    apply word_match_occurrence; assumption.
  - intros (pre & post & -> & Hn & Hl & Hpre & Hpost).
    assert (Hs : py_slice (pre ++ w ++ post) (List.length pre)
                   (List.length pre + List.length w) = w).
    { unfold py_slice; rewrite skipn_app_length.
      replace (List.length pre + List.length w - List.length pre)
        with (List.length w) by lia.
      rewrite firstn_app, Nat.sub_diag, firstn_all; cbn [firstn].
      apply app_nil_r. }
    pose proof (findall_from_reaches is_word (pre ++ w ++ post)
                  (List.length pre) (List.length w)
                  (word_match_whole is_word pre w post Hw Hn Hl Hpre Hpost)
                  (fun i m Hi Hm => word_match_before is_word pre w post i m Hw Hpre Hi Hm)
                  (S (List.length (pre ++ w ++ post))) 0) as H.
    rewrite Hs in H; apply H; [lia|].
    rewrite !length_app; lia.
Qed.

Lemma find_words_exact_witness :
  In (py "cat") (find_words ascii_word (py "a cat!")) <->
  exists pre post, py "a cat!" = pre ++ py "cat" ++ post /\
    3 <= List.length (py "cat") /\
    forallb is_ascii_letter (py "cat") = true /\
    (pre = [] \/ exists c pre', pre = pre' ++ [c] /\ ascii_word c = false) /\
    (post = [] \/ exists c post', post = c :: post' /\ ascii_word c = false).
Proof.
  apply find_words_exact.
  intros c Hc; unfold ascii_word; rewrite Hc; reflexivity.
Defined.

(** ** [_generate_nano_banana_image] and [cmd_image] *)

Lemma scan_parts_cases (pil : bool) (save_png : list Z -> saved)
    (parts : list part) :
  (exists e, scan_parts pil save_png parts = ImageFailure e) \/
  (exists pre data post path,
     pil = true /\ parts = pre ++ Some data :: post /\
     Forall (fun p => p = None) pre /\ save_png data = Saved path /\
     scan_parts pil save_png parts =
       ImageSuccess path (py "STAFFVIRTUAL branded image generated")
         (py "gemini-2.5-flash-image-preview")).
Proof.
  induction parts as [|[data|] parts IH]; simpl.
  - left; eauto.
  - destruct pil eqn:Hp.
    + destruct (save_png data) as [path|e] eqn:Hs; [|left; eauto].
      right; exists [], data, parts, path; auto.
    + destruct IH as [IH|(pre & d & post & path & H1 & _)]; [left; exact IH|discriminate].
  - destruct IH as [IH|(pre & d & post & path & H1 & H2 & H3 & H4 & H5)];
      [left; exact IH|].
    right; exists (None :: pre), d, post, path; subst; auto.
Qed.

Lemma scan_parts_no_data (pil : bool) (save_png : list Z -> saved)
    (parts : list part) :
  Forall (fun p => p = None) parts ->
  scan_parts pil save_png parts = ImageFailure (py "No image data received").
Proof.
  induction 1 as [|p parts Hp _ IH]; [reflexivity|]; subst; exact IH.
Qed.

(** [_generate_nano_banana_image] never raises: without a ["nano_banana"]
    client it fails with "Nano Banana not available"; without PIL it never
    succeeds; when no part carries inline data it fails with "No image data
    received"; and a success saved the first part carrying inline data,
    the parts before it having none. *)
Theorem generate_nano_banana_image_outcomes (b : bot)
    (gen : request -> image_response) (pil : bool)
    (save_png : list Z -> saved) (prompt style : pystr) :
  let req := ModelsGenerateContent (py "gemini-2.5-flash-image-preview")
               [branded_image_prompt prompt style] in
  let r := generate_nano_banana_image b gen pil save_png prompt style in
  (dict_get (py "nano_banana") (ai_clients b) = None ->
   r = ImageFailure (py "Nano Banana not available")) /\
  (pil = false -> exists e, r = ImageFailure e) /\
  (forall c parts, dict_get (py "nano_banana") (ai_clients b) = Some c ->
   gen req = ImgParts parts -> Forall (fun p => p = None) parts ->
   r = ImageFailure (py "No image data received")) /\
  (forall path d m, r = ImageSuccess path d m ->
   exists c parts pre data post,
     dict_get (py "nano_banana") (ai_clients b) = Some c /\
     gen req = ImgParts parts /\ parts = pre ++ Some data :: post /\
     Forall (fun p => p = None) pre /\ save_png data = Saved path /\
     d = py "STAFFVIRTUAL branded image generated" /\
     m = py "gemini-2.5-flash-image-preview").
Proof.
  cbv zeta; unfold generate_nano_banana_image.
  split; [|split; [|split]].
  - intros ->; reflexivity.
  - intros ->.
    destruct (dict_get _ _); [|eauto].
    destruct (gen _) as [parts|e]; [|eauto].
    destruct (scan_parts_cases false save_png parts)
      as [H|(pre & data & post & path & H & _)]; [exact H|discriminate].
  - intros c parts -> -> H; apply scan_parts_no_data; exact H.
  - intros path d m.
    destruct (dict_get _ _) as [c|]; [|discriminate].
    destruct (gen _) as [parts|e] eqn:Hg; [|discriminate].
    destruct (scan_parts_cases pil save_png parts)
      as [(e & H)|(pre & data & post & p & _ & H1 & H2 & H3 & H4)]; intros Hr.
    + rewrite H in Hr; discriminate.
    + rewrite H4 in Hr; injection Hr as -> -> ->.
      exists c, parts, pre, data, post; intuition.
Qed.

Lemma image_stem_props (prompt : pystr) :
  List.length (image_stem prompt) <= 20 /\ ~ In 32%Z (image_stem prompt).
Proof.
  unfold image_stem.
  change (py_slice_to ?l 20) with (firstn 20 l).
  split; [rewrite length_firstn; lia|].
  intros H; apply in_firstn_in, in_map_iff in H as (c & Hc & _).
  destruct (Z.eqb c 32) eqn:E; [discriminate|].
  subst c; discriminate.
Qed.

Lemma concept_field_prefix (concept : pystr) :
  exists v,
    image_concept_fields concept =
      [{| field_name := py "🖼️ Concept"; field_value := v |}] /\
    List.length v <= 1024 /\ exists rest, concept = v ++ rest.
Proof.
  exists (firstn 1024 concept); split; [reflexivity|split].
  - rewrite length_firstn; lia.
  - exists (skipn 1024 concept); symmetry; apply firstn_skipn.
Qed.

(** [cmd_image] replies with the generated image exactly when
    [_generate_nano_banana_image] succeeded with a non-empty path: the file
    is attached as ["staffvirtual_" + stem + ".png"], where the stem is the
    prompt with spaces turned into ['_'], cut to 20 characters, and the
    embed shows ["attachment://"] followed by that file name.  Otherwise,
    in particular without a Nano Banana client or without PIL, it replies
    with one concept field holding at most the first 1024 characters of
    the AI concept. *)
Theorem cmd_image_reply (b : bot) (gen : request -> image_response) (pil : bool)
    (save_png : list Z -> saved) (prompt style : pystr) :
  let concept :=
    fst (get_ai_response b
           (py "Create detailed STAFFVIRTUAL image concept: " ++ prompt ++
            py ", style: " ++ style)
           (py "Expert image concept designer specializing in virtual staffing company branding")
           true None) in
  let img := generate_nano_banana_image b gen pil save_png prompt style in
  (dict_get (py "nano_banana") (ai_clients b) = None \/ pil = false ->
   cmd_image b gen pil save_png prompt style =
     ConceptReply (image_concept_fields concept)) /\
  match cmd_image b gen pil save_png prompt style with
  | ImageReply desc path filename url =>
      path <> [] /\ (exists d m, img = ImageSuccess path d m) /\
      filename = py "staffvirtual_" ++ image_stem prompt ++ py ".png" /\
      url = py "attachment://" ++ filename /\
      List.length (image_stem prompt) <= 20 /\ ~ In 32%Z (image_stem prompt)
  | ConceptReply fields =>
      (forall path d m, img = ImageSuccess path d m -> path = []) /\
      exists v, fields = [{| field_name := py "🖼️ Concept"; field_value := v |}] /\
        List.length v <= 1024 /\ exists rest, concept = v ++ rest
  end.
Proof.
  cbv zeta; split.
  - unfold cmd_image, generate_nano_banana_image.
    intros [H|H]; [rewrite H; reflexivity|subst pil].
    destruct (dict_get _ _); [|reflexivity].
    destruct (gen _) as [parts|e]; [|reflexivity].
    destruct (scan_parts_cases false save_png parts)
      as [(e & ->)|(pre & data & post & path & H & _)]; [reflexivity|discriminate].
  - unfold cmd_image.
    destruct (generate_nano_banana_image b gen pil save_png prompt style)
      as [[|c0 path] d m|e] eqn:Hi.
    + split; [intros ? ? ? [= <- _ _]; reflexivity|apply concept_field_prefix].
    + split; [discriminate|split; [eauto|split; [reflexivity|split]]].
      * rewrite app_assoc; reflexivity.
      * apply image_stem_props.
    + split; [discriminate|apply concept_field_prefix].
Qed.

(** ** [parse_color] and '#' *)

Lemma drop_hash_idem (s : pystr) : drop_hash (drop_hash s) = drop_hash s.
Proof.
  unfold drop_hash; induction s as [|c s IH]; simpl; [reflexivity|].
  destruct (negb (Z.eqb c 35)) eqn:E; simpl; [rewrite E, IH|]; auto.
Qed.

Lemma lstrip_by_split (p : Z -> bool) (s : pystr) :
  exists pre, s = pre ++ lstrip_by p s /\ forallb p pre = true.
Proof.
  induction s as [|c s IH]; simpl; [exists []; auto|].
  destruct (p c) eqn:E.
  - destruct IH as (pre & H1 & H2); exists (c :: pre); simpl.
    rewrite E, H2; split; [f_equal; exact H1|reflexivity].
  - exists []; auto.
Qed.

Lemma lstrip_by_nil (p : Z -> bool) (s : pystr) :
  lstrip_by p s = [] -> forallb p s = true.
Proof.
  intros H; destruct (lstrip_by_split p s) as (pre & H1 & H2).
  rewrite H, app_nil_r in H1; subst; exact H2.
Qed.

Lemma strip_by_nil (p : Z -> bool) (s : pystr) :
  strip_by p s = [] -> forallb p s = true.
Proof.
  unfold strip_by; intros H.
  apply (f_equal (@rev Z)) in H; rewrite rev_involutive in H.
  apply lstrip_by_nil in H.
  destruct (lstrip_by_split p s) as (pre & H1 & H2).
  rewrite H1, forallb_app, H2; simpl.
  apply forallb_forall; intros x Hx.
  apply (proj1 (forallb_forall _ _) H), in_rev; rewrite rev_involutive; exact Hx.
Qed.

Lemma drop_hash_blank (s : pystr) :
  forallb py_isspace s = true -> drop_hash s = s.
Proof.
  unfold drop_hash; induction s as [|c s IH]; simpl; [reflexivity|].
  intros H; apply andb_true_iff in H as [Hc Hs].
  destruct (Z.eqb c 35) eqn:E.
  - apply Z.eqb_eq in E; subst; discriminate Hc.
  - simpl; rewrite IH; auto.
Qed.

(** [parse_color] ignores every '#' of its input, wherever it stands: the
    color parsed from a string is the one parsed from the same string with
    its '#' characters removed. *)
Theorem parse_color_drop_hash (s default : pystr) :
  parse_color (Some s) default = parse_color (Some (drop_hash s)) default.
Proof.
  unfold parse_color; cbv zeta; rewrite drop_hash_idem.
  destruct (pystr_eqb s [] || pystr_eqb (py_strip s) []) eqn:E1.
  - assert (Hs : forallb py_isspace s = true).
    { apply orb_true_iff in E1 as [E|E]; apply pystr_eqb_eq in E.
      - subst; reflexivity.
      - apply strip_by_nil; exact E. }
    rewrite (drop_hash_blank s Hs), E1; reflexivity.
  - destruct (pystr_eqb (drop_hash s) [] || pystr_eqb (py_strip (drop_hash s)) [])
      eqn:E2; [|reflexivity].
    assert (Hc : py_strip (drop_hash s) = []).
    { apply orb_true_iff in E2 as [E|E]; apply pystr_eqb_eq in E;
        [rewrite E; reflexivity|exact E]. }
    rewrite Hc; reflexivity.
Qed.

(** ** Embed field values and Discord's limit *)

Lemma py_slice_length (s : pystr) (i j : nat) :
  List.length (py_slice s i j) <= j - i.
Proof. unfold py_slice; rewrite length_firstn; lia. Qed.

Lemma social_fields_fit (platform_title r : pystr) :
  Forall (fun f => List.length (field_value f) <= 1024)
    (social_post_fields platform_title r).
Proof.
  unfold social_post_fields; cbv zeta.
  destruct (Nat.ltb_spec 1024 (List.length r)) as [H1|H1];
    [destruct (Nat.ltb_spec 2048 (List.length r)) as [H2|H2]|];
    repeat apply Forall_cons; try apply Forall_nil; cbn [field_value].
  - pose proof (py_slice_length r 0 1024); lia.
  - pose proof (py_slice_length r 1024 2048); lia.
  - pose proof (py_slice_length r 0 1024); lia.
  - unfold py_slice_from; rewrite length_skipn; lia.
  - exact H1.
Qed.

Lemma preview_fields_fit (r n1 n2 n3 n4 n5 note : pystr) :
  Nat.leb (List.length note) 1024 = true ->
  Forall (fun f => List.length (field_value f) <= 1024)
    (if Nat.ltb 1000 (List.length r) then
       {| field_name := n1; field_value := py_slice r 0 1000 |} ::
       (if Nat.ltb 2000 (List.length r) then
          [ {| field_name := n2; field_value := py_slice r 1000 2000 |};
            {| field_name := n3; field_value := note |} ]
        else [ {| field_name := n4; field_value := py_slice_from r 1000 |} ])
     else [ {| field_name := n5; field_value := r |} ]).
Proof.
  intros Hn.
  destruct (Nat.ltb_spec 1000 (List.length r)) as [H1|H1];
    [destruct (Nat.ltb_spec 2000 (List.length r)) as [H2|H2]|];
    repeat apply Forall_cons; try apply Forall_nil; cbn [field_value].
  - pose proof (py_slice_length r 0 1000); lia.
  - pose proof (py_slice_length r 1000 2000); lia.
  - apply Nat.leb_le; exact Hn.
  - pose proof (py_slice_length r 0 1000); lia.
  - unfold py_slice_from; rewrite length_skipn; lia.
  - lia.
Qed.

Lemma seo_fields_fit (kw r : pystr) :
  Forall (fun f => List.length (field_value f) <= 1024)
    (fst (seo_audit_reply kw r)).
Proof.
  assert (Hs : Forall (fun f => List.length (field_value f) <= 1024)
                 (seo_shown_fields r)).
  { apply Forall_forall; intros f Hf.
    assert (Hv : In (field_value f) (firstn 6 (seo_chunks r)))
      by (rewrite <- seo_shown_values; apply in_map; exact Hf).
    apply in_firstn_in in Hv; unfold seo_chunks in Hv.
    apply in_map_iff in Hv as (i & <- & _).
    pose proof (py_slice_length r i (i + 1024)); lia. }
  destruct (Nat.ltb_spec 1024 (List.length r)) as [H1|H1].
  - rewrite seo_audit_reply_long by exact H1.
    destruct (Nat.ltb 6 _); [|exact Hs].
    apply Forall_app; split; [exact Hs|].
    constructor; [apply Nat.leb_le; vm_compute; reflexivity|constructor].
  - unfold seo_audit_reply.
    rewrite (proj2 (Nat.ltb_ge _ _) H1).
    repeat apply Forall_cons; try apply Forall_nil; exact H1.
Qed.

(** Every embed field that carries an AI result, or the note that goes
    with it, holds at most 1024 characters, Discord's limit for a field
    value: in [cmd_social_enhanced], [cmd_content_enhanced],
    [cmd_campaign_enhanced], [cmd_seo_audit] and [cmd_image]. *)
Theorem result_fields_fit (platform_title target_keywords r : pystr) :
  Forall (fun f => List.length (field_value f) <= 1024)
    (social_post_fields platform_title r ++ content_preview_fields r ++
     campaign_preview_fields r ++ fst (seo_audit_reply target_keywords r) ++
     image_concept_fields r).
Proof.
  repeat (apply Forall_app; split).
  - apply social_fields_fit.
  - apply preview_fields_fit; vm_compute; reflexivity.
  - apply preview_fields_fit; vm_compute; reflexivity.
  - apply seo_fields_fit.
  - repeat apply Forall_cons; try apply Forall_nil; cbn [field_value image_concept_fields].
    change (py_slice_to r 1024) with (firstn 1024 r).
    rewrite length_firstn; lia.
Qed.
